(** * source-shopify: incremental state, pagination and order slicing

    A shallow embedding of
    [airbyte-integrations/connectors/source-shopify/source_shopify/source.py]:
    the stream classes with their class attributes, the request parameters,
    the high-water state update, the temporary state shared between the
    streams, the client-side record filter, the next-page token and the
    reading of the order sub-streams.

    Python values are dynamically typed; the embedding keeps that. A
    comparison between an integer and a string, or with [None], raises
    [TypeError], a subscript on a missing key raises [KeyError], and both are
    results of the model, not assumptions about the inputs. The two
    functions of [urllib.parse] that the connector calls are parameters:
    every statement holds for whatever they return or raise. *)

From Stdlib Require Import ZArith String Ascii List Lia Bool DecimalString.
From Stdlib Require Import DecimalPos DecimalZ.
From stdpp Require Import base option gmap strings list fin_maps.

Open Scope Z_scope.

(** ** Python values *)

(** The JSON scalars a cursor, an identifier or a request parameter takes.
    A [str] is its UTF-8 byte sequence: comparing the bytes lexicographically
    is comparing the code points. *)
Inductive value : Type :=
  | VNone
  | VInt (z : Z)
  | VStr (s : string).

#[global] Instance value_eq_dec : EqDecision value.
Proof. solve_decision. Defined.

Inductive exn : Type :=
  | TypeError
  | KeyError
  | ValueError.

#[global] Instance exn_eq_dec : EqDecision exn.
Proof. solve_decision. Defined.

Inductive result (A : Type) : Type :=
  | Ok (a : A)
  | Raise (e : exn).

Arguments Ok {A} a.
Arguments Raise {A} e.

(** [dict] is a Python [dict] with [str] keys, [record] and [state] are the
    two uses the connector makes of it. *)
Abbreviation dict := (gmap string value).

(** [bool(v)]: [None], [0] and the empty string are false. *)
Definition py_truthy (v : value) : bool :=
  match v with
  | VNone => false
  | VInt z => negb (z =? 0)
  | VStr s => negb (s =? "")%string
  end.

(** [bool(d)] for a dict: false exactly on the empty one. *)
Definition dict_truthy {A : Type} (d : gmap string A) : bool :=
  negb (bool_decide (d = ∅)).

(** [bool(d)] for an argument that defaults to [None]. *)
Definition opt_truthy {A : Type} (d : option (gmap string A)) : bool :=
  match d with
  | None => false
  | Some m => dict_truthy m
  end.

(** [a < b]. *)
Definition py_lt (a b : value) : result bool :=
  match a, b with
  | VInt x, VInt y => Ok (x <? y)
  | VStr s, VStr t => Ok (String.ltb s t)
  | _, _ => Raise TypeError
  end.

(** [a > b] is [b < a] on [int] and on [str]. *)
Definition py_gt (a b : value) : result bool := py_lt b a.

(** [a >= b]. *)
Definition py_ge (a b : value) : result bool :=
  match a, b with
  | VInt x, VInt y => Ok (y <=? x)
  | VStr s, VStr t => Ok (String.leb t s)
  | _, _ => Raise TypeError
  end.

(** [min(a, b)]: the first argument is kept unless the second is strictly
    smaller. *)
Definition py_min (a b : value) : result value :=
  match py_lt b a with
  | Ok true => Ok b
  | Ok false => Ok a
  | Raise e => Raise e
  end.

(** [max(a, b)]: the first argument is kept unless the second is strictly
    larger. *)
Definition py_max (a b : value) : result value :=
  match py_gt b a with
  | Ok true => Ok b
  | Ok false => Ok a
  | Raise e => Raise e
  end.

(** [d.get(k, dflt)]. *)
Definition py_get (d : dict) (k : string) (dflt : value) : value :=
  default dflt (d !! k).

(** [d[k]]. *)
Definition py_item (d : dict) (k : string) : result value :=
  match d !! k with
  | Some v => Ok v
  | None => Raise KeyError
  end.

(** [str(v)], as an f-string formats it. *)
Definition py_str (v : value) : string :=
  match v with
  | VNone => "None"
  | VInt z => NilZero.string_of_int (Z.to_int z)
  | VStr s => s
  end.

(** ** The stream classes *)

(** The classes [SourceShopify.streams] instantiates; every one of them
    derives from [IncrementalShopifyStream]. *)
Inductive stream_class : Type :=
  | Customers
  | Orders
  | DraftOrders
  | Products
  | AbandonedCheckouts
  | Metafields
  | CustomCollections
  | Collects
  | OrderRefunds
  | OrderRisks
  | Transactions
  | Pages
  | PriceRules
  | DiscountCodes.

#[global] Instance stream_class_eq_dec : EqDecision stream_class.
Proof. solve_decision. Defined.

(** [ShopifyStream.limit]. *)
Definition limit : Z := 250.

Definition data_field (c : stream_class) : string :=
  match c with
  | Customers => "customers"
  | Orders => "orders"
  | DraftOrders => "draft_orders"
  | Products => "products"
  | AbandonedCheckouts => "checkouts"
  | Metafields => "metafields"
  | CustomCollections => "custom_collections"
  | Collects => "collects"
  | OrderRefunds => "refunds"
  | OrderRisks => "risks"
  | Transactions => "transactions"
  | Pages => "pages"
  | PriceRules => "price_rules"
  | DiscountCodes => "discount_codes"
  end.

(** [cursor_field]: ["updated_at"] in [IncrementalShopifyStream], overridden
    by four classes. *)
Definition cursor_field (c : stream_class) : string :=
  match c with
  | Collects | OrderRisks => "id"
  | OrderRefunds | Transactions => "created_at"
  | _ => "updated_at"
  end.

(** [order_field]: ["updated_at"] in [ShopifyStream]. *)
Definition order_field (c : stream_class) : string :=
  match c with
  | Collects | OrderRisks => "id"
  | OrderRefunds | Transactions => "created_at"
  | _ => "updated_at"
  end.

(** [filter_field]: ["updated_at_min"] in [ShopifyStream]. *)
Definition filter_field (c : stream_class) : string :=
  match c with
  | Collects | OrderRisks => "since_id"
  | OrderRefunds | Transactions => "created_at_min"
  | _ => "updated_at_min"
  end.

(** Modelled from the spec: [Stream.name] of the CDK, the stream name that
    keys the state; it is the class name in snake case, and the source looks
    up two of them, ["orders"] and ["price_rules"], in the temporary state. *)
Definition name (c : stream_class) : string :=
  match c with
  | Customers => "customers"
  | Orders => "orders"
  | DraftOrders => "draft_orders"
  | Products => "products"
  | AbandonedCheckouts => "abandoned_checkouts"
  | Metafields => "metafields"
  | CustomCollections => "custom_collections"
  | Collects => "collects"
  | OrderRefunds => "order_refunds"
  | OrderRisks => "order_risks"
  | Transactions => "transactions"
  | Pages => "pages"
  | PriceRules => "price_rules"
  | DiscountCodes => "discount_codes"
  end.

(** The classes deriving from [OrderSubstream]. *)
Definition is_order_substream (c : stream_class) : bool :=
  match c with
  | OrderRefunds | OrderRisks | Transactions => true
  | _ => false
  end.

(** The classes that override [get_updated_state] and [request_params] for an
    identifier cursor. *)
Definition is_id_cursored (c : stream_class) : bool :=
  match c with
  | Collects | OrderRisks => true
  | _ => false
  end.

(** The part of [config] the streams read. *)
Record config : Type := Config {
  start_date : value;
  shop : string
}.

(** ** The temporary stream state *)

(** [ShopifyStream.tmp_stream_state] is a class attribute: one dict object,
    which [stream_state_to_tmp] mutates in place and which every instance of
    every stream class reads. The model threads that one object. *)
Abbreviation bridge := (gmap string dict).

(** A computation on the shared object: the object after it, and the value
    returned or the exception raised. An assignment made before an exception
    stays made. *)
Definition M (A : Type) : Type := bridge -> bridge * result A.

Definition ret {A : Type} (a : A) : M A := fun b => (b, Ok a).

Definition raise {A : Type} (e : exn) : M A := fun b => (b, Raise e).

Definition bind {A B : Type} (m : M A) (k : A -> M B) : M B :=
  fun b =>
    match m b with
    | (b', Ok a) => k a b'
    | (b', Raise e) => (b', Raise e)
    end.

Definition lift {A : Type} (r : result A) : M A :=
  fun b => (b, r).

(** [state_object[stream_name] = d]. *)
Definition store (stream_name : string) (d : dict) : M unit :=
  fun b => (<[stream_name := d]> b, Ok tt).

(** [state_object.get(stream_name, {}).get(cursor_field, "")]. *)
Definition load (stream_name cursor_field : string) : M value :=
  fun b => (b, Ok (py_get (default ∅ (b !! stream_name)) cursor_field (VStr ""))).

#[global] Instance M_ret : MRet M := @ret.
#[global] Instance M_bind : MBind M := fun A B k m => bind m k.

(** [IncrementalShopifyStream.stream_state_to_tmp]; the object returned is
    the object passed, so the result carries no value. *)
Definition stream_state_to_tmp (stream_name : string)
    (current_stream_state latest_record : dict) (cursor_field : string)
  : M unit :=
  tmp_stream_state_value ← load stream_name cursor_field;
  if dict_truthy current_stream_state then
    v ← lift (py_min (py_get current_stream_state cursor_field (VStr ""))
                     (py_get latest_record cursor_field (VStr "")));
    store stream_name {[ cursor_field := v ]};;
    if py_truthy tmp_stream_state_value then
      w ← lift (py_min (py_get current_stream_state cursor_field (VStr ""))
                       tmp_stream_state_value);
      store stream_name {[ cursor_field := w ]}
    else ret tt
  else ret tt.

(** [IncrementalShopifyStream.get_updated_state]. *)
Definition IncrementalShopifyStream_get_updated_state (c : stream_class)
    (current_stream_state latest_record : dict) : M dict :=
  stream_state_to_tmp (name c) current_stream_state latest_record
                      (cursor_field c);;
  v ← lift (py_max (py_get latest_record (cursor_field c) (VStr ""))
                   (py_get current_stream_state (cursor_field c) (VStr "")));
  ret {[ cursor_field c := v ]}.

(** [Collects.get_updated_state] and [OrderRisks.get_updated_state], the
    same body in both classes. *)
Definition id_get_updated_state (c : stream_class)
    (current_stream_state latest_record : dict) : M dict :=
  v ← lift (py_max (py_get latest_record (cursor_field c) (VInt 0))
                   (py_get current_stream_state (cursor_field c) (VInt 0)));
  ret {[ cursor_field c := v ]}.

(** [get_updated_state] as the method resolution order finds it. *)
Definition get_updated_state (c : stream_class)
    (current_stream_state latest_record : dict) : M dict :=
  if is_id_cursored c
  then id_get_updated_state c current_stream_state latest_record
  else IncrementalShopifyStream_get_updated_state c current_stream_state
         latest_record.


(** ** Request parameters *)

(** [ShopifyStream.request_params]. Updating [params] with the token lets
    the token's pairs override the ones already there. *)
Definition ShopifyStream_request_params (c : stream_class) (cfg : config)
    (next_page_token : option dict) : dict :=
  let params : dict := {[ "limit" := VInt limit ]} in
  if opt_truthy next_page_token then
    default ∅ next_page_token ∪ params
  else
    <[ filter_field c := start_date cfg ]>
      (<[ "order" := VStr (order_field c +:+ " asc") ]> params).

(** [IncrementalShopifyStream.request_params]; [stream_state.get] returns
    [None] for a state without the cursor field. *)
Definition IncrementalShopifyStream_request_params (c : stream_class)
    (cfg : config) (stream_state next_page_token : option dict) : dict :=
  let params := ShopifyStream_request_params c cfg next_page_token in
  if negb (opt_truthy next_page_token) then
    let params := <[ "order" := VStr (order_field c +:+ " asc") ]> params in
    if opt_truthy stream_state then
      <[ filter_field c :=
           py_get (default ∅ stream_state) (cursor_field c) VNone ]> params
    else params
  else params.

(** [Orders.request_params] and [AbandonedCheckouts.request_params]. *)
Definition status_request_params (c : stream_class) (cfg : config)
    (stream_state next_page_token : option dict) : dict :=
  let params :=
    IncrementalShopifyStream_request_params c cfg stream_state next_page_token in
  if negb (opt_truthy next_page_token) then
    <[ "status" := VStr "any" ]> params
  else params.

(** [Collects.request_params] and [OrderRisks.request_params]. *)
Definition id_request_params (c : stream_class) (cfg : config)
    (stream_state next_page_token : option dict) : dict :=
  let params :=
    IncrementalShopifyStream_request_params c cfg stream_state next_page_token in
  if negb (opt_truthy next_page_token) && negb (opt_truthy stream_state) then
    <[ filter_field c := VInt 0 ]> params
  else params.

(** [request_params] as the method resolution order finds it. *)
Definition request_params (c : stream_class) (cfg : config)
    (stream_state next_page_token : option dict) : dict :=
  match c with
  | Orders | AbandonedCheckouts =>
      status_request_params c cfg stream_state next_page_token
  | Collects | OrderRisks =>
      id_request_params c cfg stream_state next_page_token
  | _ =>
      IncrementalShopifyStream_request_params c cfg stream_state
        next_page_token
  end.

(** ** Endpoint paths *)

(** [stream_slice[key]] for a [stream_slice] that defaults to [None]. *)
Definition slice_item (stream_slice : option dict) (key : string)
  : result value :=
  match stream_slice with
  | None => Raise TypeError
  | Some d => py_item d key
  end.

(** [path]: [f"{self.data_field}.json"], and under the parent's identifier
    for the sub-streams. *)
Definition path (c : stream_class) (stream_slice : option dict)
  : result string :=
  match c with
  | OrderRefunds | OrderRisks | Transactions =>
      match slice_item stream_slice "order_id" with
      | Ok order_id =>
          Ok ("orders/" +:+ py_str order_id +:+ "/" +:+ data_field c +:+ ".json")
      | Raise e => Raise e
      end
  | DiscountCodes =>
      match slice_item stream_slice "price_rule_id" with
      | Ok price_rule_id =>
          Ok ("price_rules/" +:+ py_str price_rule_id +:+ "/" +:+ data_field c
              +:+ ".json")
      | Raise e => Raise e
      end
  | _ => Ok (data_field c +:+ ".json")
  end.

(** ** The next-page token *)

(** The two functions of [urllib.parse] the connector calls, taken as the
    library has them: [urlparse(url).query], with the exception that
    [urlparse] raises on a url it refuses, and [parse_qsl]. What they compute
    is the library's business; the connector's is what it does with them. *)
Record urllib : Type := Urllib {
  urlparse_query : option string -> result string;
  parse_qsl : string -> list (string * string)
}.

(** [dict(pairs)]: a later pair replaces an earlier one with the same key. *)
Definition py_dict (pairs : list (string * string)) : dict :=
  fold_left (fun d kv => <[ kv.1 := VStr kv.2 ]> d) pairs ∅.

(** [response.links]: each link of the [Link] header under its [rel]. *)
Abbreviation links_dict := (gmap string (gmap string string)).

(** [ShopifyStream.next_page_token], from [response.links]. An exception of
    [urlparse] is not caught. *)
Definition next_page_token (lib : urllib) (links : links_dict)
  : result (option dict) :=
  match links !! "next" with
  | Some next_page =>
      if dict_truthy next_page then
        match urlparse_query lib (next_page !! "url") with
        | Ok query => Ok (Some (py_dict (parse_qsl lib query)))
        | Raise e => Raise e
        end
      else Ok None
  | None => Ok None
  end.

(** ** Generators *)

Record request : Type := Request {
  req_path : string;
  req_params : dict
}.

(** What a response is read for: its links and, in its JSON body, the lists
    of records under the top-level fields. *)
Record response : Type := Response {
  links : links_dict;
  json : gmap string (list dict)
}.

(** How the consumption of a generator ends. [OutOfFuel] is the model's: the
    page loop ran longer than the bound it was given. *)
Inductive ending : Type :=
  | Finished
  | Raised (e : exn)
  | OutOfFuel.

#[global] Instance ending_eq_dec : EqDecision ending.
Proof. solve_decision. Defined.

(** What can be seen of a generator while it is consumed. *)
Inductive event : Type :=
  | Sent (rq : request)
  | Yield (r : dict).

(** What consuming a generator does: the requests sent and the records
    yielded to the caller, in the order they happen, and the ending. *)
Record outcome : Type := Outcome {
  events : list event;
  ending_of : ending
}.

Definition requests (o : outcome) : list request :=
  omap (fun ev => match ev with Sent rq => Some rq | Yield _ => None end)
       (events o).

Definition yielded (o : outcome) : list dict :=
  omap (fun ev => match ev with Yield r => Some r | Sent _ => None end)
       (events o).

Definition finished : outcome := Outcome [] Finished.
Definition yield (r : dict) : outcome := Outcome [Yield r] Finished.
Definition raised (e : exn) : outcome := Outcome [] (Raised e).
Definition sent (rq : request) : outcome := Outcome [Sent rq] Finished.
Definition out_of_fuel : outcome := Outcome [] OutOfFuel.

(** Sequencing: what follows an exception does not run. *)
Definition and_then (o1 o2 : outcome) : outcome :=
  match ending_of o1 with
  | Finished => Outcome (events o1 ++ events o2) (ending_of o2)
  | _ => o1
  end.

(** A generator is lazy: the body of the loop that consumes it runs at each
    [yield], before the generator goes on. The model passes the generator
    that body. *)
Definition generator : Type := (dict -> outcome) -> outcome.

(** [for record in records: body]. *)
Fixpoint for_each (records : list dict) (body : dict -> outcome) : outcome :=
  match records with
  | [] => finished
  | record :: rest => and_then (body record) (for_each rest body)
  end.

(** A list, iterated. *)
Definition of_list (records : list dict) : generator := for_each records.

(** [list(g)]: the caller takes every record. *)
Definition consume (g : generator) : outcome := g yield.

(** ** The client-side filter *)

(** The test of [filter_records_newer_than_state] on one record; the left
    operand, the subscript, is evaluated first. *)
Definition newer_than_state (cursor_field : string) (stream_state : dict)
    (record : dict) : result bool :=
  match py_item record cursor_field with
  | Ok v => py_ge v (py_get stream_state cursor_field VNone)
  | Raise e => Raise e
  end.

(** [IncrementalShopifyStream.filter_records_newer_than_state]. *)
Definition filter_records_newer_than_state (c : stream_class)
    (stream_state : option dict) (records_slice : generator) : generator :=
  fun body =>
    if opt_truthy stream_state then
      records_slice (fun record =>
        match newer_than_state (cursor_field c) (default ∅ stream_state)
                record with
        | Ok true => body record
        | Ok false => finished
        | Raise e => raised e
        end)
    else records_slice body.

(** ** Reading records *)

Section Reading.

(** The library, the server as the HTTP client shows it, and the
    configuration. *)
Variable lib : urllib.
Variable send : request -> response.
Variable cfg : config.

(** [ShopifyStream.parse_response]; every class sets [data_field], and a
    body without that field gives no record. The decorator of the rate
    limiter is the opaque wait of section 5 of the specification: it changes
    no record. *)
Definition parse_response (c : stream_class) (r : response) : list dict :=
  default [] (json r !! data_field c).

(** Modelled from the spec: [HttpStream.read_records] of the CDK, the page
    loop of section 4.3: a request without token, then a request with the
    token of the last response as long as there is one, the records of
    each page yielded before the next request. An exception of
    [next_page_token] ends the loop after the records of its page. [fuel]
    bounds the number of pages. *)
Fixpoint page_loop (fuel : nat) (c : stream_class) (stream_state : dict)
    (stream_slice : option dict) (token : option dict) : generator :=
  fun body =>
    match fuel with
    | O => out_of_fuel
    | S fuel' =>
        match path c stream_slice with
        | Raise e => raised e
        | Ok p =>
            let rq :=
              Request p (request_params c cfg (Some stream_state) token) in
            let r := send rq in
            and_then (sent rq)
              (and_then (for_each (parse_response c r) body)
                 (match next_page_token lib (links r) with
                  | Raise e => raised e
                  | Ok token' =>
                      if opt_truthy token'
                      then page_loop fuel' c stream_state stream_slice token'
                             body
                      else finished
                  end))
        end
    end.

(** Modelled from the spec: [HttpStream.read_records] of the CDK starts the
    page loop without token; a [stream_state] that is [None] counts as the
    empty one. *)
Definition HttpStream_read_records (fuel : nat) (c : stream_class)
    (stream_state stream_slice : option dict) : generator :=
  page_loop fuel c (default ∅ stream_state) stream_slice None.

(** [OrderSubstream.read_records]; [tmp_stream_state] is the shared
    object. The call to the superclass passes no [stream_state]. *)
Definition OrderSubstream_read_records (fuel : nat) (c : stream_class)
    (tmp_stream_state : bridge) (stream_state : option dict) : generator :=
  fun body =>
    let orders_stream_state := tmp_stream_state !! "orders" in
    HttpStream_read_records fuel Orders orders_stream_state None
      (fun data =>
         match py_item data "id" with
         | Raise e => raised e
         | Ok order_id =>
             let slice :=
               HttpStream_read_records fuel c None
                 (Some {[ "order_id" := order_id ]}) in
             filter_records_newer_than_state c stream_state slice body
         end).

(** [DiscountCodes.read_records]. *)
Definition DiscountCodes_read_records (fuel : nat)
    (tmp_stream_state : bridge) (stream_state : option dict) : generator :=
  fun body =>
    let price_rules_stream_state := tmp_stream_state !! "price_rules" in
    HttpStream_read_records fuel PriceRules price_rules_stream_state None
      (fun data =>
         match py_item data "id" with
         | Raise e => raised e
         | Ok price_rule_id =>
             let discount_slice :=
               HttpStream_read_records fuel DiscountCodes None
                 (Some {[ "price_rule_id" := price_rule_id ]}) in
             filter_records_newer_than_state DiscountCodes stream_state
               discount_slice body
         end).

(** [read_records] as the method resolution order finds it. *)
Definition read_records (fuel : nat) (c : stream_class)
    (tmp_stream_state : bridge) (stream_state stream_slice : option dict)
  : generator :=
  match c with
  | OrderRefunds | OrderRisks | Transactions =>
      OrderSubstream_read_records fuel c tmp_stream_state stream_state
  | DiscountCodes =>
      DiscountCodes_read_records fuel tmp_stream_state stream_state
  | _ => HttpStream_read_records fuel c stream_state stream_slice
  end.

End Reading.


(** ** Notions of the specification *)

(** The smaller and the larger of two timestamps, by the lexicographic
    order. *)
Definition str_min (a b : string) : string := if String.leb a b then a else b.
Definition str_max (a b : string) : string := if String.leb a b then b else a.

(** The cursor of a timestamp-cursored record or state: a string, the empty
    one when the field is missing. *)
Definition str_field (d : dict) (k : string) : option string :=
  match d !! k with
  | None => Some EmptyString
  | Some (VStr s) => Some s
  | Some _ => None
  end.

(** The cursor of an identifier-cursored record or state: an integer, zero
    when the field is missing. *)
Definition int_field (d : dict) (k : string) : option Z :=
  match d !! k with
  | None => Some 0
  | Some (VInt z) => Some z
  | Some _ => None
  end.

(** Two values Python can order: two integers or two strings. *)
Definition same_kind (a b : value) : bool :=
  match a, b with
  | VInt _, VInt _ => true
  | VStr _, VStr _ => true
  | _, _ => false
  end.

(** [a <= b] on two values of one kind. *)
Definition value_leb (a b : value) : bool :=
  match a, b with
  | VInt x, VInt y => x <=? y
  | VStr s, VStr t => String.leb s t
  | _, _ => false
  end.

(** A record whose cursor is at least the cursor [sv] of the state: the
    records the filter is to keep. *)
Definition cursor_at_least (cursor_field : string) (sv : value)
    (record : dict) : bool :=
  match record !! cursor_field with
  | Some v => value_leb sv v
  | None => false
  end.

(** A record of the data model for a state with cursor [sv]: it has the
    cursor field, with a value of the kind of [sv]. *)
Definition cursor_comparable (cursor_field : string) (sv : value)
    (record : dict) : Prop :=
  exists v, record !! cursor_field = Some v /\ same_kind v sv = true.

(** The value of the last pair with the name [k], when there is one. *)
Fixpoint last_value (k : string) (pairs : list (string * string))
  : option string :=
  match pairs with
  | [] => None
  | kv :: rest =>
      match last_value k rest with
      | Some v => Some v
      | None => if String.eqb kv.1 k then Some kv.2 else None
      end
  end.

(** The value the bridge holds for a stream, as [stream_state_to_tmp] reads
    it. *)
Definition bridged (b : bridge) (stream_name cursor_field : string) : value :=
  py_get (default ∅ (b !! stream_name)) cursor_field (VStr "").

(** The shared object after a computation. *)
Definition exec {A : Type} (m : M A) (b : bridge) : bridge := (m b).1.

(** The bridged value as the specification words it: the minimum of the
    [min(currentState, latestRecord)] just computed and of any prior bridged
    value. *)
Definition bridged_value_spec (current latest : string)
    (prior : option string) : string :=
  match prior with
  | Some p => str_min (str_min current latest) p
  | None => str_min current latest
  end.

(** A sequence of bridge updates of one stream, each with its current state
    and latest record; an exception ends it. *)
Fixpoint bridge_updates (stream_name cursor_field : string)
    (updates : list (dict * dict)) : M unit :=
  match updates with
  | [] => ret tt
  | (current_stream_state, latest_record) :: rest =>
      stream_state_to_tmp stream_name current_stream_state latest_record
        cursor_field ;;
      bridge_updates stream_name cursor_field rest
  end.

(** An update of a timestamp-cursored stream in a running sync: the state is
    empty or holds a timestamp, the record holds one. *)
Definition timestamp_update (cursor_field : string) (u : dict * dict) : Prop :=
  (u.1 = ∅ \/ exists c, u.1 !! cursor_field = Some (VStr c) /\ c <> EmptyString)
  /\ exists l, str_field u.2 cursor_field = Some l.

(** The body the filter runs on each record when the caller takes every
    record. *)
Definition filter_step (cf : string) (s : dict) (record : dict) : outcome :=
  match newer_than_state cf s record with
  | Ok true => yield record
  | Ok false => finished
  | Raise e => raised e
  end.

(** A generator consumed by a loop: from what the generator does when the
    caller takes every record, what it does when [body] runs at each
    [yield]. The requests stay where they are, each record yielded gives way
    to the run of the body on it, and the first ending that is not
    [Finished] is the ending. *)
Fixpoint resume (es : list event) (e : ending) (body : dict -> outcome)
  : outcome :=
  match es with
  | [] => Outcome [] e
  | Sent rq :: es' => and_then (sent rq) (resume es' e body)
  | Yield r :: es' => and_then (body r) (resume es' e body)
  end.

Definition feed (o : outcome) (body : dict -> outcome) : outcome :=
  resume (events o) (ending_of o) body.

(** The events of a loop whose every pass finishes: each record yielded is
    replaced by the events of the body on it. *)
Definition splice (body : dict -> outcome) (ev : event) : list event :=
  match ev with
  | Sent rq => [Sent rq]
  | Yield r => events (body r)
  end.

(** One pass of the loop of [OrderSubstream.read_records] on the parent
    record [data], the caller taking every record: the fetch cycle of the
    child stream under the order's identifier, through the filter. *)
Definition order_cycle (lib : urllib) (send : request -> response) (cfg : config)
    (fuel : nat) (c : stream_class) (stream_state : option dict)
    (data : dict) : outcome :=
  match py_item data "id" with
  | Raise e => raised e
  | Ok order_id =>
      consume (filter_records_newer_than_state c stream_state
                 (HttpStream_read_records lib send cfg fuel c None
                    (Some {[ "order_id" := order_id ]})))
  end.

(** The endpoint of a child stream of orders for an order. *)
Definition order_path (c : stream_class) (order_id : value) : string :=
  "orders/" +:+ py_str order_id +:+ "/" +:+ data_field c +:+ ".json".

(** A library for the examples. It reads links of the shape
    [<url>?k1=v1&k2=v2]: the query is what follows the first [?], its fields
    are separated by [&], a name and its value by the first [=]. *)
Fixpoint split_once (c : ascii) (s : string) : string * option string :=
  match s with
  | EmptyString => (EmptyString, None)
  | String a s' =>
      if Ascii.eqb a c then (EmptyString, Some s')
      else let (h, t) := split_once c s' in (String a h, t)
  end.

Fixpoint split_all (c : ascii) (s : string) : list string :=
  match s with
  | EmptyString => [EmptyString]
  | String a s' =>
      if Ascii.eqb a c then EmptyString :: split_all c s'
      else match split_all c s' with
           | h :: t => String a h :: t
           | [] => [String a EmptyString]
           end
  end.

Definition example_urllib : urllib :=
  Urllib
    (fun url =>
       Ok (default EmptyString (split_once "?" (default EmptyString url)).2))
    (fun qs =>
       flat_map
         (fun name_value =>
            match split_once "=" name_value with
            | (n, Some v) => [(n, v)]
            | (_, None) => []
            end)
         (split_all "&" qs)).

(** A library that refuses every url. *)
Definition refusing_urllib : urllib :=
  Urllib (fun _ => Raise ValueError) (fun _ => []).

(** A shop with three orders on two pages and the same three refunds under
    each order. *)
Definition example_refunds : list dict :=
  [ {[ "created_at" := VStr "2021-05-01" ]};
    {[ "created_at" := VStr "2021-06-01" ]};
    {[ "created_at" := VStr "2021-07-01" ]} ].

Definition example_shop (rq : request) : response :=
  if (req_path rq =? "orders.json")%string then
    if bool_decide (req_params rq !! "page_info" = Some (VStr "p2"))
    then Response ∅ {[ "orders" := [ {[ "id" := VInt 3 ]} ] ]}
    else Response
           {[ "next" := {[ "url" :=
                "https://x.myshopify.com/orders.json?limit=250&page_info=p2"%string ]} ]}
           {[ "orders" := [ {[ "id" := VInt 1 ]}; {[ "id" := VInt 2 ]} ] ]}
  else Response ∅ {[ "refunds" := example_refunds ]}.

(** One pass of the loop of [DiscountCodes.read_records] on the price rule
    [data], the caller taking every record. *)
Definition price_rule_cycle (lib : urllib) (send : request -> response) (cfg : config)
    (fuel : nat) (stream_state : option dict) (data : dict) : outcome :=
  match py_item data "id" with
  | Raise e => raised e
  | Ok price_rule_id =>
      consume (filter_records_newer_than_state DiscountCodes stream_state
                 (HttpStream_read_records lib send cfg fuel DiscountCodes None
                    (Some {[ "price_rule_id" := price_rule_id ]})))
  end.

(** The endpoint of the discount codes of a price rule. *)
Definition price_rule_path (price_rule_id : value) : string :=
  "price_rules/" +:+ py_str price_rule_id +:+ "/discount_codes.json".

(** A shop with two price rules and one discount code under each. *)
Definition example_price_shop (rq : request) : response :=
  if (req_path rq =? "price_rules.json")%string then
    Response ∅ {[ "price_rules" := [ {[ "id" := VInt 10 ]};
                                     {[ "id" := VInt 20 ]} ] ]}
  else Response ∅ {[ "discount_codes" :=
                       [ {[ "updated_at" := VStr "2021-05-01" ]} ] ]}.

(** Successive state updates over the records of a sync, each state returned
    being the current state of the next update. *)
Fixpoint sync (c : stream_class) (records : list dict)
    (stream_state : dict) : M dict :=
  match records with
  | [] => ret stream_state
  | record :: rest =>
      stream_state' ← get_updated_state c stream_state record;
      sync c rest stream_state'
  end.

(** The largest of a timestamp and a list of timestamps, and of an integer
    and a list of integers. *)
Definition str_max_list (a : string) (ls : list string) : string :=
  fold_left (fun m l => str_max l m) ls a.

Definition int_max_list (a : Z) (ls : list Z) : Z :=
  fold_left (fun m l => Z.max l m) ls a.

(** The key of the slice a stream reads its parent's identifier from; the
    streams that are not sub-streams have none. *)
Definition slice_key (c : stream_class) : option string :=
  match c with
  | OrderRefunds | OrderRisks | Transactions => Some "order_id"%string
  | DiscountCodes => Some "price_rule_id"%string
  | _ => None
  end.

(** A shop whose second order comes without identifier. *)
Definition example_broken_shop (rq : request) : response :=
  if (req_path rq =? "orders.json")%string then
    Response ∅ {[ "orders" := [ {[ "id" := VInt 1 ]};
                                {[ "name" := VStr "#1002" ]};
                                {[ "id" := VInt 3 ]} ] ]}
  else Response ∅ {[ "refunds" := example_refunds ]}.

(** ** The order on timestamps *)

Lemma ascii_compare_refl (a : ascii) : Ascii.compare a a = Eq.
Proof. unfold Ascii.compare. apply N.compare_refl. Qed.

Lemma string_compare_refl (s : string) : String.compare s s = Eq.
Proof.
  induction s as [|a s IH]; simpl; [reflexivity|].
  now rewrite ascii_compare_refl.
Qed.

Lemma string_leb_refl (s : string) : String.leb s s = true.
Proof. unfold String.leb. now rewrite string_compare_refl. Qed.

Lemma string_ltb_irrefl (s : string) : String.ltb s s = false.
Proof. unfold String.ltb. now rewrite string_compare_refl. Qed.

Lemma string_leb_ltb (a b : string) : String.leb a b = negb (String.ltb b a).
Proof.
  unfold String.leb, String.ltb. rewrite (String.compare_antisym a b).
  now destruct (String.compare b a).
Qed.

Lemma string_ltb_leb (a b : string) :
  String.ltb a b = true -> String.leb a b = true.
Proof.
  unfold String.leb, String.ltb. now destruct (String.compare a b).
Qed.

Lemma ascii_compare_trans (a b c : ascii) (r : comparison) :
  Ascii.compare a b = r -> Ascii.compare b c = r -> Ascii.compare a c = r.
Proof.
  unfold Ascii.compare. intros H1 H2. destruct r.
  - apply N.compare_eq_iff in H1. apply N.compare_eq_iff in H2.
    apply N.compare_eq_iff. congruence.
  - apply N.compare_lt_iff in H1. apply N.compare_lt_iff in H2.
    apply N.compare_lt_iff. eapply N.lt_trans; eassumption.
  - apply N.compare_gt_iff in H1. apply N.compare_gt_iff in H2.
    apply N.compare_gt_iff. eapply N.lt_trans; eassumption.
Qed.

Lemma string_leb_trans (a b c : string) :
  String.leb a b = true -> String.leb b c = true -> String.leb a c = true.
Proof.
  unfold String.leb. revert b c.
  induction a as [|x a IH]; intros [|y b] [|z c]; simpl; try done.
  destruct (Ascii.compare x y) eqn:Exy; [| |done];
    destruct (Ascii.compare y z) eqn:Eyz; try done.
  - rewrite (ascii_compare_trans _ _ _ _ Exy Eyz). apply IH.
  - apply Ascii.compare_eq_iff in Exy. subst y. now rewrite Eyz.
  - apply Ascii.compare_eq_iff in Eyz. subst z. now rewrite Exy.
  - now rewrite (ascii_compare_trans _ _ _ _ Exy Eyz).
Qed.

Lemma string_leb_empty (s : string) : String.leb EmptyString s = true.
Proof. now destruct s. Qed.

Lemma string_leb_empty_r (s : string) :
  String.leb s EmptyString = true -> s = EmptyString.
Proof. now destruct s. Qed.

Lemma str_min_le_l (a b : string) : String.leb (str_min a b) a = true.
Proof.
  unfold str_min. destruct (String.leb a b) eqn:E.
  - apply string_leb_refl.
  - destruct (String.leb_total a b) as [H|H]; congruence.
Qed.

Lemma str_min_le_r (a b : string) : String.leb (str_min a b) b = true.
Proof.
  unfold str_min. destruct (String.leb a b) eqn:E; [done|].
  apply string_leb_refl.
Qed.

Lemma str_min_cases (a b : string) : str_min a b = a \/ str_min a b = b.
Proof. unfold str_min. destruct (String.leb a b); auto. Qed.

Lemma str_max_ge_l (a b : string) : String.leb a (str_max a b) = true.
Proof.
  unfold str_max. destruct (String.leb a b) eqn:E; [done|].
  apply string_leb_refl.
Qed.

Lemma str_max_ge_r (a b : string) : String.leb b (str_max a b) = true.
Proof.
  unfold str_max. destruct (String.leb a b) eqn:E.
  - apply string_leb_refl.
  - destruct (String.leb_total a b) as [H|H]; congruence.
Qed.

Lemma str_max_cases (a b : string) : str_max a b = a \/ str_max a b = b.
Proof. unfold str_max. destruct (String.leb a b); auto. Qed.

Lemma str_min_of_le (a b : string) : String.leb a b = true -> str_min a b = a.
Proof. unfold str_min. now intros ->. Qed.

(** [min] and [max] of Python on two strings are the minimum and the maximum
    of the order. *)
Lemma py_min_str (a b : string) :
  py_min (VStr a) (VStr b) = Ok (VStr (str_min a b)).
Proof.
  unfold py_min, str_min. simpl. rewrite string_leb_ltb.
  now destruct (String.ltb b a).
Qed.

Lemma py_max_str (a b : string) :
  py_max (VStr a) (VStr b) = Ok (VStr (str_max a b)).
Proof.
  unfold py_max, py_gt, str_max. simpl.
  destruct (String.ltb a b) eqn:E.
  - now rewrite (string_ltb_leb _ _ E).
  - destruct (String.leb a b) eqn:E'; [|done].
    unfold String.ltb, String.leb in *.
    destruct (String.compare a b) eqn:C; try done.
    apply String.compare_eq_iff in C. now subst.
Qed.

Lemma py_max_int (x y : Z) : py_max (VInt x) (VInt y) = Ok (VInt (Z.max x y)).
Proof.
  unfold py_max, py_gt. simpl. destruct (x <? y) eqn:E.
  - apply Z.ltb_lt in E. f_equal. f_equal. lia.
  - apply Z.ltb_ge in E. f_equal. f_equal. lia.
Qed.

Lemma str_field_get (d : dict) (k s : string) :
  str_field d k = Some s -> py_get d k (VStr "") = VStr s.
Proof.
  unfold str_field, py_get. destruct (d !! k) as [[]|]; simpl; congruence.
Qed.

Lemma int_field_get (d : dict) (k : string) (z : Z) :
  int_field d k = Some z -> py_get d k (VInt 0) = VInt z.
Proof.
  unfold int_field, py_get. destruct (d !! k) as [[]|]; simpl; congruence.
Qed.

Lemma dict_truthy_true {A : Type} (d : gmap string A) :
  d <> ∅ -> dict_truthy d = true.
Proof. intros H. unfold dict_truthy. now rewrite bool_decide_eq_false_2. Qed.

Lemma dict_truthy_empty {A : Type} : dict_truthy (∅ : gmap string A) = false.
Proof. unfold dict_truthy. now rewrite bool_decide_eq_true_2. Qed.

Lemma dict_truthy_singleton (k : string) (v : value) :
  dict_truthy ({[ k := v ]} : dict) = true.
Proof. apply dict_truthy_true. apply insert_non_empty. Qed.

Lemma py_truthy_str (s : string) :
  py_truthy (VStr s) = negb (s =? "")%string.
Proof. reflexivity. Qed.

Lemma bridged_store (b : bridge) (n k : string) (v : value) :
  bridged (<[ n := {[ k := v ]} ]> b) n k = v.
Proof.
  unfold bridged, py_get. rewrite lookup_insert_eq. simpl.
  now rewrite lookup_singleton_eq.
Qed.


Lemma str_min_comm (a b : string) : str_min a b = str_min b a.
Proof.
  unfold str_min.
  destruct (String.leb a b) eqn:E1, (String.leb b a) eqn:E2; try done.
  - now apply String.leb_antisym.
  - destruct (String.leb_total a b) as [H|H]; congruence.
Qed.

(** ** The bridge update *)

Ltac unfold_M :=
  unfold mbind, mret, M_bind, M_ret, bind, ret, lift, store, load in *.

(** With an empty current state the update does nothing. *)
Lemma stream_state_to_tmp_empty (stream_name cf : string) (latest : dict)
    (b : bridge) :
  stream_state_to_tmp stream_name ∅ latest cf b = (b, Ok tt).
Proof.
  unfold stream_state_to_tmp. unfold_M. now rewrite dict_truthy_empty.
Qed.

(** On timestamps, with a state that is not empty: the value stored is
    [min(current, latest)] without a prior value, and [min(current, prior)]
    with one. *)
Lemma stream_state_to_tmp_timestamps (stream_name cf : string)
    (cur latest : dict) (b : bridge) (c l p : string) :
  dict_truthy cur = true ->
  str_field cur cf = Some c ->
  str_field latest cf = Some l ->
  bridged b stream_name cf = VStr p ->
  stream_state_to_tmp stream_name cur latest cf b =
    (<[ stream_name :=
          {[ cf := VStr (if (p =? "")%string then str_min c l
                         else str_min c p) ]} ]> b, Ok tt).
Proof.
  intros Hcur Hc Hl Hp. unfold stream_state_to_tmp. unfold_M.
  unfold bridged in Hp. rewrite Hp, Hcur.
  rewrite (str_field_get _ _ _ Hc), (str_field_get _ _ _ Hl).
  rewrite py_min_str. rewrite py_truthy_str.
  destruct (p =? "")%string; simpl; [reflexivity|].
  rewrite py_min_str. now rewrite insert_insert_eq.
Qed.

(** C1, the counterexample: with a prior value, a latest record below the
    current state does not enter the bridged value. The code stores
    [min(current, prior)]; the minimum of the three is smaller. *)
Lemma stream_state_to_tmp_not_min_of_three :
  let cur : dict := {[ "updated_at" := VStr "2021-02-01" ]} in
  let latest : dict := {[ "updated_at" := VStr "2021-01-01" ]} in
  let b : bridge := {[ "orders" := {[ "updated_at" := VStr "2021-03-01" ]} ]} in
  let b' := exec (stream_state_to_tmp "orders" cur latest "updated_at") b in
  bridged b' "orders" "updated_at" = VStr "2021-02-01"
  /\ bridged_value_spec "2021-02-01" "2021-01-01" (Some "2021-03-01"%string)
     = "2021-01-01"%string
  /\ bridged b' "orders" "updated_at"
     <> VStr (bridged_value_spec "2021-02-01" "2021-01-01"
                (Some "2021-03-01"%string)).
Proof. vm_compute. repeat split; congruence. Qed.

(** C1, as amended. With a current state that is not empty, on timestamps:
    [stream_state_to_tmp] sets the entry of the stream to [min(current,
    latest)] when the stream has no prior bridged value and to [min(current,
    prior)] when it has one, and touches no other entry; this is the minimum
    of [min(current, latest)] and of the prior value whenever the current
    state is not above the latest record. After two such calls on a bridge
    without prior value, the first storing a non-empty [V1], the bridged
    value is [min(current2, V1)], which is [min(V1, V2)] whenever the second
    current state is not above the second latest record. *)
Theorem stream_state_to_tmp_bridged_value :
  forall (stream_name cf : string) (cur latest : dict) (b : bridge)
         (c l p : string),
    dict_truthy cur = true ->
    str_field cur cf = Some c ->
    str_field latest cf = Some l ->
    bridged b stream_name cf = VStr p ->
    let prior := if (p =? "")%string then None else Some p in
    let b' := exec (stream_state_to_tmp stream_name cur latest cf) b in
    stream_state_to_tmp stream_name cur latest cf b = (b', Ok tt)
    /\ b' !! stream_name =
         Some {[ cf := VStr (match prior with
                             | None => str_min c l
                             | Some q => str_min c q
                             end) ]}
    /\ (forall n, n <> stream_name -> b' !! n = b !! n)
    /\ (String.leb c l = true ->
        bridged b' stream_name cf = VStr (bridged_value_spec c l prior))
    /\ (forall (cur2 latest2 : dict) (c2 l2 : string),
          dict_truthy cur2 = true ->
          str_field cur2 cf = Some c2 ->
          str_field latest2 cf = Some l2 ->
          p = EmptyString ->
          str_min c l <> EmptyString ->
          let b'' := exec (stream_state_to_tmp stream_name cur2 latest2 cf) b' in
          bridged b'' stream_name cf = VStr (str_min c2 (str_min c l))
          /\ (String.leb c2 l2 = true ->
              bridged b'' stream_name cf =
                VStr (str_min (str_min c l) (str_min c2 l2)))).
Proof.
  intros stream_name cf cur latest b c l p Hcur Hc Hl Hp prior b'.
  pose proof (stream_state_to_tmp_timestamps _ _ _ _ _ _ _ _ Hcur Hc Hl Hp)
    as Hrun.
  assert (Hb' : b' = <[ stream_name :=
            {[ cf := VStr (if (p =? "")%string then str_min c l
                           else str_min c p) ]} ]> b).
  { unfold b', exec. now rewrite Hrun. }
  split; [now rewrite Hrun, Hb'|].
  split.
  { rewrite Hb', lookup_insert_eq. unfold prior.
    now destruct (p =? "")%string. }
  split.
  { intros n Hn. rewrite Hb'. now rewrite lookup_insert_ne. }
  split.
  { intros Hle. rewrite Hb', bridged_store. unfold prior, bridged_value_spec.
    destruct (p =? "")%string; [reflexivity|].
    now rewrite (str_min_of_le _ _ Hle). }
  intros cur2 latest2 c2 l2 Hcur2 Hc2 Hl2 Hp0 Hv1 b''.
  assert (Hbr : bridged b' stream_name cf = VStr (str_min c l)).
  { rewrite Hb', bridged_store. subst p. reflexivity. }
  pose proof (stream_state_to_tmp_timestamps _ _ _ _ _ _ _ _
                Hcur2 Hc2 Hl2 Hbr) as Hrun2.
  assert (E : (str_min c l =? "")%string = false)
    by now apply String.eqb_neq.
  rewrite E in Hrun2.
  assert (Hb'' : bridged b'' stream_name cf = VStr (str_min c2 (str_min c l))).
  { unfold b'', exec. rewrite Hrun2. simpl. apply bridged_store. }
  split; [exact Hb''|].
  intros Hle2. rewrite Hb''. rewrite (str_min_of_le _ _ Hle2).
  now rewrite str_min_comm.
Qed.

Lemma stream_state_to_tmp_bridged_value_witness :
  let cur : dict := {[ "updated_at" := VStr "2021-02-01" ]} in
  let latest : dict := {[ "updated_at" := VStr "2021-02-15" ]} in
  let cur2 : dict := {[ "updated_at" := VStr "2021-02-15" ]} in
  let latest2 : dict := {[ "updated_at" := VStr "2021-03-01" ]} in
  let b' := exec (stream_state_to_tmp "orders" cur latest "updated_at") ∅ in
  let b'' := exec (stream_state_to_tmp "orders" cur2 latest2 "updated_at") b' in
  b' !! "orders" = Some ({[ "updated_at" := VStr "2021-02-01" ]} : dict)
  /\ bridged b'' "orders" "updated_at" = VStr "2021-02-01".
Proof.
  intros cur latest cur2 latest2.
  pose proof (stream_state_to_tmp_bridged_value "orders" "updated_at" cur
                latest ∅ "2021-02-01" "2021-02-15" ""
                eq_refl eq_refl eq_refl eq_refl) as H.
  cbv zeta in H. destruct H as (_ & H1 & _ & _ & H2).
  split; [exact H1|].
  refine (proj1 (H2 cur2 latest2 "2021-02-15"%string "2021-03-01"%string
                   eq_refl eq_refl eq_refl eq_refl _)).
  vm_compute. discriminate.
Defined.


(** One update never puts a strictly larger value in the place of a recorded
    one, whatever the types of the values and whether or not it raises. *)
Lemma stream_state_to_tmp_not_larger (stream_name cf : string)
    (cur latest : dict) (b : bridge) (p : value) :
  bridged b stream_name cf = p ->
  py_truthy p = true ->
  py_lt p (bridged (exec (stream_state_to_tmp stream_name cur latest cf) b)
                   stream_name cf) <> Ok true.
Proof.
  intros Hp Ht. unfold exec, stream_state_to_tmp. unfold_M.
  unfold bridged in Hp. rewrite Hp, Ht.
  assert (Hpp : py_lt p p <> Ok true).
  { destruct p; simpl; try discriminate.
    - rewrite Z.ltb_irrefl. discriminate.
    - rewrite string_ltb_irrefl. discriminate. }
  destruct (dict_truthy cur); simpl;
    [|unfold bridged; now rewrite Hp].
  destruct (py_min (py_get cur cf (VStr "")) (py_get latest cf (VStr "")))
    as [m|e] eqn:Em; simpl; [|unfold bridged; now rewrite Hp].
  destruct (py_min (py_get cur cf (VStr "")) p) as [w|e] eqn:Ew; simpl.
  - rewrite bridged_store. unfold py_min in Ew.
    destruct (py_lt p (py_get cur cf (VStr ""))) as [[]|] eqn:E;
      inversion Ew; subst; [exact Hpp|]. rewrite E. discriminate.
  - rewrite bridged_store. unfold py_min in Em, Ew.
    destruct (py_get cur cf (VStr "")) as [|x|x],
             (py_get latest cf (VStr "")) as [|y|y]; simpl in Em;
      try discriminate; destruct p; simpl in Ew; try discriminate;
      match type of Ew with
      | context [if ?g then _ else _] => destruct g; discriminate
      | _ => idtac
      end;
      match type of Em with
      | context [if ?g then _ else _] =>
          destruct g; inversion Em; subst; simpl; discriminate
      end.
Qed.

Lemma str_min_nonempty (a b : string) :
  a <> EmptyString -> b <> EmptyString -> str_min a b <> EmptyString.
Proof. intros Ha Hb. destruct (str_min_cases a b) as [-> | ->]; done. Qed.

(** Across a run of updates on timestamps, a recorded value only goes
    down. *)
Lemma bridge_updates_timestamps (stream_name cf : string)
    (updates : list (dict * dict)) :
  forall (b : bridge) (q : string),
    Forall (timestamp_update cf) updates ->
    bridged b stream_name cf = VStr q ->
    q <> EmptyString ->
    exists (b' : bridge) (q' : string),
      bridge_updates stream_name cf updates b = (b', Ok tt)
      /\ bridged b' stream_name cf = VStr q'
      /\ q' <> EmptyString
      /\ String.leb q' q = true.
Proof.
  induction updates as [|[cur latest] us IH]; intros b q Hall Hq Hne.
  - exists b, q. repeat split; try done. apply string_leb_refl.
  - apply Forall_cons in Hall as [[Hcur [l Hl]] Hall]. simpl in Hcur, Hl.
    simpl. unfold mbind, M_bind, bind.
    destruct Hcur as [-> | (c & Hc & Hcne)].
    + rewrite stream_state_to_tmp_empty. now apply IH.
    + assert (Ht : dict_truthy cur = true).
      { apply dict_truthy_true. intros ->. now rewrite lookup_empty in Hc. }
      assert (Hsf : str_field cur cf = Some c)
        by (unfold str_field; now rewrite Hc).
      rewrite (stream_state_to_tmp_timestamps _ _ _ _ _ _ _ _ Ht Hsf Hl Hq).
      assert (E : (q =? "")%string = false) by now apply String.eqb_neq.
      rewrite E.
      destruct (IH (<[ stream_name := {[ cf := VStr (str_min c q) ]} ]> b)
                   (str_min c q) Hall (bridged_store _ _ _ _)
                   (str_min_nonempty _ _ Hcne Hne))
        as (b' & q' & Hrun & Hb' & Hq' & Hle).
      exists b', q'. repeat split; try done.
      eapply string_leb_trans; [exact Hle|apply str_min_le_r].
Qed.

(** C4. Once a value is recorded in the bridge for a stream, no update
    replaces it with a strictly larger one: not a single update, whatever
    the values, and not a run of updates of a timestamp-cursored stream,
    which ends with a recorded value at most the first. *)
Theorem bridge_value_non_increasing :
  forall (stream_name cf : string) (b : bridge) (p : value),
    bridged b stream_name cf = p ->
    py_truthy p = true ->
    (forall cur latest : dict,
        py_lt p (bridged (exec (stream_state_to_tmp stream_name cur latest cf) b)
                         stream_name cf) <> Ok true)
    /\ (forall (q : string) (updates : list (dict * dict)),
          p = VStr q ->
          Forall (timestamp_update cf) updates ->
          exists (b' : bridge) (q' : string),
            bridge_updates stream_name cf updates b = (b', Ok tt)
            /\ bridged b' stream_name cf = VStr q'
            /\ q' <> EmptyString
            /\ String.leb q' q = true).
Proof.
  intros stream_name cf b p Hp Ht. split.
  - intros cur latest. now apply stream_state_to_tmp_not_larger.
  - intros q updates -> Hall. apply bridge_updates_timestamps; try done.
    intros ->. discriminate.
Qed.

Lemma bridge_value_non_increasing_witness :
  let b : bridge := {[ "orders" := {[ "updated_at" := VStr "2021-03-01" ]} ]} in
  let cur : dict := {[ "updated_at" := VStr "2021-02-01" ]} in
  let latest : dict := {[ "updated_at" := VStr "2021-04-01" ]} in
  py_truthy (bridged b "orders" "updated_at") = true
  /\ py_lt (VStr "2021-03-01")
       (bridged (exec (stream_state_to_tmp "orders" cur latest "updated_at") b)
                "orders" "updated_at") <> Ok true
  /\ exists (b' : bridge) (q' : string),
       bridge_updates "orders" "updated_at" [(cur, latest); (∅, latest)] b
       = (b', Ok tt)
       /\ bridged b' "orders" "updated_at" = VStr q'
       /\ q' <> EmptyString
       /\ String.leb q' "2021-03-01" = true.
Proof.
  intros b cur latest.
  destruct (bridge_value_non_increasing "orders" "updated_at" b
              (VStr "2021-03-01") eq_refl eq_refl) as [H1 H2].
  split; [reflexivity|]. split; [exact (H1 cur latest)|].
  apply (H2 "2021-03-01"%string [(cur, latest); (∅, latest)] eq_refl).
  apply Forall_cons_2; [|apply Forall_cons_2; [|apply Forall_nil_2]].
  - split; [right|]; eexists; [split; [reflexivity|discriminate]|reflexivity].
  - split; [left; reflexivity|]. eexists. reflexivity.
Defined.

(** ** The first sync *)

Lemma request_params_no_state (c : stream_class) (cfg : config)
    (token : option dict) :
  request_params c cfg (Some ∅) token = request_params c cfg None token.
Proof. destruct c; reflexivity. Qed.

(** C9, the counterexample: on a first sync the bridge does not stay empty.
    The first record, met with the empty state, leaves it empty; the second
    is met with the state the first returned, and the update writes the
    entry of the stream, which an order sub-stream then reads as the state of
    its parent. *)
Lemma first_sync_bridge_not_empty :
  let r1 : dict := {[ "updated_at" := VStr "2021-03-01" ]} in
  let r2 : dict := {[ "updated_at" := VStr "2021-04-01" ]} in
  let b' := exec (sync Orders [r1; r2] ∅) ∅ in
  exec (sync Orders [r1] ∅) ∅ = ∅
  /\ b' !! "orders" = Some ({[ "updated_at" := VStr "2021-03-01" ]} : dict)
  /\ b' <> ∅.
Proof.
  split; [reflexivity|]. split; [reflexivity|].
  intros H. apply (f_equal (fun m : bridge => m !! "orders")) in H.
  vm_compute in H. discriminate H.
Qed.

(** C9, as amended. With an empty current state [stream_state_to_tmp]
    returns the bridge as it was, whatever the latest record. So the first
    record of a first sync, met with an empty state and an empty bridge,
    leaves the bridge empty, and an order sub-stream that reads it then
    finds no state for ["orders"]: its first request is the parent's first
    page with the start date in the filter field. *)
Theorem stream_state_to_tmp_empty_state_unchanged :
  (forall (stream_name cf : string) (latest : dict) (b : bridge),
      stream_state_to_tmp stream_name ∅ latest cf b = (b, Ok tt))
  /\ (forall (c : stream_class) (latest : dict),
        exec (get_updated_state c ∅ latest) ∅ = ∅)
  /\ (forall (lib : urllib) (send : request -> response) (cfg : config) (fuel : nat)
             (c : stream_class) (stream_state : option dict) (latest : dict),
        let b' := exec (get_updated_state Orders ∅ latest) ∅ in
        b' !! "orders" = None
        /\ head (requests (consume
             (OrderSubstream_read_records lib send cfg (S fuel) c b' stream_state)))
           = Some (Request "orders.json" (request_params Orders cfg None None))
        /\ request_params Orders cfg None None !! "updated_at_min"
           = Some (start_date cfg)).
Proof.
  assert (Hg : forall c latest, exec (get_updated_state c ∅ latest) ∅ = ∅).
  { intros c latest. unfold exec, get_updated_state.
    destruct (is_id_cursored c).
    - unfold id_get_updated_state. unfold_M.
      now destruct (py_max _ _).
    - unfold IncrementalShopifyStream_get_updated_state.
      unfold mbind, M_bind, bind. rewrite stream_state_to_tmp_empty.
      unfold_M. now destruct (py_max _ _). }
  split; [apply stream_state_to_tmp_empty|]. split; [exact Hg|].
  intros lib send cfg fuel c stream_state latest b'. unfold b'. rewrite Hg.
  split; [apply lookup_empty|]. split; [|reflexivity].
  unfold consume, OrderSubstream_read_records, HttpStream_read_records.
  rewrite lookup_empty. cbn [default page_loop path].
  rewrite request_params_no_state. reflexivity.
Qed.


(** ** The state update *)

Lemma same_kind_sym (a b : value) : same_kind a b = same_kind b a.
Proof. now destruct a, b. Qed.

Lemma same_kind_trans (a b c : value) :
  same_kind a b = true -> same_kind b c = true -> same_kind a c = true.
Proof. now destruct a, b, c. Qed.

Lemma py_min_same_kind (a b : value) :
  same_kind a b = true ->
  exists m, py_min a b = Ok m /\ same_kind a m = true.
Proof.
  destruct a as [|x|x], b as [|y|y]; try discriminate; intros _;
    unfold py_min; simpl.
  - destruct (y <? x); eauto.
  - destruct (String.ltb y x); eauto.
Qed.

Lemma py_min_Ok_kind (a b m : value) :
  py_min a b = Ok m -> same_kind a b = true /\ same_kind a m = true.
Proof.
  destruct a as [|x|x], b as [|y|y]; unfold py_min; simpl; try discriminate.
  - destruct (y <? x); intros [= <-]; done.
  - destruct (String.ltb y x); intros [= <-]; done.
Qed.

(** [max] returns one of its arguments, of their common kind, and taking the
    maximum with the same argument again changes nothing. *)
Lemma py_max_Ok (l c m : value) :
  py_max l c = Ok m ->
  same_kind l c = true /\ same_kind l m = true /\ py_max l m = Ok m.
Proof.
  destruct l as [|x|x], c as [|y|y]; unfold py_max, py_gt; simpl;
    try discriminate.
  - destruct (x <? y) eqn:E; intros [= <-]; simpl; repeat split.
    + now rewrite E.
    + now rewrite Z.ltb_irrefl.
  - destruct (String.ltb x y) eqn:E; intros [= <-]; simpl; repeat split.
    + now rewrite E.
    + now rewrite string_ltb_irrefl.
Qed.

(** The bridge update succeeds on a state that is not empty when the two
    cursors are of one kind and the bridge holds nothing or a value of that
    kind. *)
Lemma stream_state_to_tmp_Ok (stream_name cf : string) (cur latest : dict)
    (b : bridge) :
  dict_truthy cur = true ->
  same_kind (py_get cur cf (VStr "")) (py_get latest cf (VStr "")) = true ->
  py_truthy (bridged b stream_name cf) = false
  \/ same_kind (py_get cur cf (VStr "")) (bridged b stream_name cf) = true ->
  exists b', stream_state_to_tmp stream_name cur latest cf b = (b', Ok tt).
Proof.
  intros Hcur Hk Hb. unfold stream_state_to_tmp. unfold_M. rewrite Hcur.
  destruct (py_min_same_kind _ _ Hk) as (m & -> & _). simpl.
  fold (bridged b stream_name cf).
  destruct (py_truthy (bridged b stream_name cf)) eqn:Et; simpl; [|eauto].
  destruct Hb as [Hb|Hb]; [discriminate|].
  destruct (py_min_same_kind _ _ Hb) as (w & -> & _). simpl. eauto.
Qed.

(** After a successful update on a state that is not empty the bridge holds
    a value of the kind of the state's cursor. *)
Lemma stream_state_to_tmp_kind (stream_name cf : string) (cur latest : dict)
    (b b1 : bridge) :
  dict_truthy cur = true ->
  stream_state_to_tmp stream_name cur latest cf b = (b1, Ok tt) ->
  same_kind (py_get cur cf (VStr "")) (bridged b1 stream_name cf) = true.
Proof.
  intros Hcur. unfold stream_state_to_tmp. unfold_M. rewrite Hcur.
  destruct (py_min (py_get cur cf (VStr "")) (py_get latest cf (VStr "")))
    as [m|e] eqn:Em; simpl; [|discriminate].
  fold (bridged b stream_name cf).
  destruct (py_truthy (bridged b stream_name cf)); simpl.
  - destruct (py_min (py_get cur cf (VStr "")) (bridged b stream_name cf))
      as [w|e] eqn:Ew; simpl; [|discriminate].
    intros [= <-]. rewrite bridged_store.
    now apply py_min_Ok_kind in Ew.
  - intros [= <-]. rewrite bridged_store. now apply py_min_Ok_kind in Em.
Qed.

Lemma dict_truthy_false {A : Type} (d : gmap string A) :
  dict_truthy d = false -> d = ∅.
Proof.
  unfold dict_truthy. intros H. apply negb_false_iff in H.
  now apply bool_decide_eq_true_1 in H.
Qed.

(** The default update on timestamps. *)
Lemma get_updated_state_timestamps (c : stream_class) (cur latest : dict)
    (b : bridge) (a l p : string) :
  is_id_cursored c = false ->
  str_field cur (cursor_field c) = Some a ->
  str_field latest (cursor_field c) = Some l ->
  bridged b (name c) (cursor_field c) = VStr p ->
  exists b',
    get_updated_state c cur latest b =
      (b', Ok {[ cursor_field c := VStr (str_max l a) ]}).
Proof.
  intros Hc Ha Hl Hp. unfold get_updated_state. rewrite Hc.
  unfold IncrementalShopifyStream_get_updated_state.
  unfold mbind, M_bind, bind.
  destruct (dict_truthy cur) eqn:Et.
  - rewrite (stream_state_to_tmp_timestamps _ _ _ _ _ _ _ _ Et Ha Hl Hp).
    unfold_M. rewrite (str_field_get _ _ _ Ha), (str_field_get _ _ _ Hl).
    rewrite py_max_str. eauto.
  - apply dict_truthy_false in Et. subst cur.
    rewrite stream_state_to_tmp_empty. unfold_M.
    rewrite (str_field_get _ _ _ Ha), (str_field_get _ _ _ Hl).
    rewrite py_max_str. eauto.
Qed.

(** The update of the identifier-cursored streams. *)
Lemma get_updated_state_ids (c : stream_class) (cur latest : dict)
    (b : bridge) (a l : Z) :
  is_id_cursored c = true ->
  int_field cur (cursor_field c) = Some a ->
  int_field latest (cursor_field c) = Some l ->
  get_updated_state c cur latest b =
    (b, Ok {[ cursor_field c := VInt (Z.max l a) ]}).
Proof.
  intros Hc Ha Hl. unfold get_updated_state. rewrite Hc.
  unfold id_get_updated_state. unfold_M.
  rewrite (int_field_get _ _ _ Ha), (int_field_get _ _ _ Hl).
  now rewrite py_max_int.
Qed.

Lemma py_get_singleton (k : string) (v dflt : value) :
  py_get {[ k := v ]} k dflt = v.
Proof. unfold py_get. now rewrite lookup_singleton_eq. Qed.

(** Applying the update again with the same record returns the same
    state. *)
Lemma get_updated_state_again (c : stream_class) (cur latest s1 : dict)
    (b b1 : bridge) :
  (is_id_cursored c = false ->
   exists p, bridged b (name c) (cursor_field c) = VStr p) ->
  get_updated_state c cur latest b = (b1, Ok s1) ->
  exists b2, get_updated_state c s1 latest b1 = (b2, Ok s1).
Proof.
  intros Hb. unfold get_updated_state.
  destruct (is_id_cursored c) eqn:Hc.
  - unfold id_get_updated_state. unfold_M.
    destruct (py_max (py_get latest (cursor_field c) (VInt 0))
                     (py_get cur (cursor_field c) (VInt 0)))
      as [m|e] eqn:Em; [|discriminate].
    intros [= <- <-]. rewrite py_get_singleton.
    apply py_max_Ok in Em as (_ & _ & ->). eauto.
  - destruct (Hb eq_refl) as [p Hp].
    unfold IncrementalShopifyStream_get_updated_state.
    unfold mbind, M_bind, bind.
    destruct (stream_state_to_tmp (name c) cur latest (cursor_field c) b)
      as [b1' [[]|e]] eqn:Etmp; [|unfold_M; discriminate].
    unfold lift at 1, ret at 1.
    destruct (py_max (py_get latest (cursor_field c) (VStr ""))
                     (py_get cur (cursor_field c) (VStr "")))
      as [m|e] eqn:Em; [|discriminate].
    intros [= <- <-]. apply py_max_Ok in Em as (Hlc & Hlm & Hmax).
    assert (Hk : py_truthy (bridged b1' (name c) (cursor_field c)) = false
                 \/ same_kind m (bridged b1' (name c) (cursor_field c)) = true).
    { right. destruct (dict_truthy cur) eqn:Et.
      - pose proof (stream_state_to_tmp_kind _ _ _ _ _ _ Et Etmp) as Hk.
        rewrite same_kind_sym in Hlm.
        eapply same_kind_trans; [exact Hlm|].
        eapply same_kind_trans; [exact Hlc|exact Hk].
      - apply dict_truthy_false in Et. subst cur.
        rewrite stream_state_to_tmp_empty in Etmp.
        injection Etmp as <-. rewrite Hp.
        unfold py_get in Hlc. rewrite lookup_empty in Hlc. simpl in Hlc.
        rewrite same_kind_sym in Hlm.
        eapply same_kind_trans; [exact Hlm|].
        eapply same_kind_trans; [exact Hlc|reflexivity]. }
    destruct (stream_state_to_tmp_Ok (name c) (cursor_field c)
                {[ cursor_field c := m ]} latest b1') as [b2 Hb2].
    + apply dict_truthy_singleton.
    + rewrite py_get_singleton. now rewrite same_kind_sym.
    + now rewrite py_get_singleton.
    + rewrite Hb2. unfold lift, ret. rewrite py_get_singleton.
      rewrite Hmax. eauto.
Qed.

(** C3. [get_updated_state] returns the cursor field with the maximum of the
    latest record's and the current state's values: on the timestamp-cursored
    streams the lexicographic maximum, a missing value counting as the empty
    string; on Collects and OrderRisks the numeric maximum, a missing value
    counting as 0. Applied again to its own result with the same record it
    returns that result. *)
Theorem get_updated_state_max :
  (forall (c : stream_class) (cur latest : dict) (b : bridge) (a l p : string),
      is_id_cursored c = false ->
      str_field cur (cursor_field c) = Some a ->
      str_field latest (cursor_field c) = Some l ->
      bridged b (name c) (cursor_field c) = VStr p ->
      exists b',
        get_updated_state c cur latest b =
          (b', Ok {[ cursor_field c := VStr (str_max l a) ]}))
  /\ (forall (c : stream_class) (cur latest : dict) (b : bridge) (a l : Z),
        is_id_cursored c = true ->
        int_field cur (cursor_field c) = Some a ->
        int_field latest (cursor_field c) = Some l ->
        get_updated_state c cur latest b =
          (b, Ok {[ cursor_field c := VInt (Z.max l a) ]}))
  /\ (forall (c : stream_class) (cur latest s1 : dict) (b b1 : bridge),
        (is_id_cursored c = false ->
         exists p, bridged b (name c) (cursor_field c) = VStr p) ->
        get_updated_state c cur latest b = (b1, Ok s1) ->
        exists b2, get_updated_state c s1 latest b1 = (b2, Ok s1)).
Proof.
  split; [exact get_updated_state_timestamps|].
  split; [exact get_updated_state_ids|exact get_updated_state_again].
Qed.

Lemma get_updated_state_max_witness :
  (exists b', get_updated_state Orders {[ "updated_at" := VStr "2021-02-01" ]}
                {[ "updated_at" := VStr "2021-01-15" ]} ∅
              = (b', Ok {[ "updated_at" := VStr "2021-02-01" ]}))
  /\ get_updated_state Collects ∅ {[ "id" := VInt 3 ]} ∅
     = (∅, Ok {[ "id" := VInt 3 ]})
  /\ (exists b2, get_updated_state Orders {[ "updated_at" := VStr "2021-01-01" ]}
                   {[ "updated_at" := VStr "2021-01-01" ]} ∅
                 = (b2, Ok {[ "updated_at" := VStr "2021-01-01" ]})).
Proof.
  destruct get_updated_state_max as (H1 & H2 & H3).
  split; [|split].
  - exact (H1 Orders {[ "updated_at" := VStr "2021-02-01" ]}
              {[ "updated_at" := VStr "2021-01-15" ]} ∅
              "2021-02-01"%string "2021-01-15"%string ""%string
              eq_refl eq_refl eq_refl eq_refl).
  - exact (H2 Collects ∅ {[ "id" := VInt 3 ]} ∅ 0 3 eq_refl eq_refl eq_refl).
  - refine (H3 Orders ∅ {[ "updated_at" := VStr "2021-01-01" ]}
              {[ "updated_at" := VStr "2021-01-01" ]} ∅ ∅ _ eq_refl).
    intros _. exists ""%string. reflexivity.
Defined.


(** ** Request parameters *)

(** With a token every class sends the token over the page size. *)
Lemma request_params_token (c : stream_class) (cfg : config)
    (stream_state : option dict) (token : dict) :
  dict_truthy token = true ->
  request_params c cfg stream_state (Some token)
  = token ∪ {[ "limit" := VInt limit ]}.
Proof.
  intros Ht.
  assert (Ho : opt_truthy (Some token) = true) by exact Ht.
  assert (H : IncrementalShopifyStream_request_params c cfg stream_state
                (Some token) = token ∪ {[ "limit" := VInt limit ]}).
  { unfold IncrementalShopifyStream_request_params,
      ShopifyStream_request_params. now rewrite Ho. }
  destruct c; unfold request_params, status_request_params,
    id_request_params; rewrite ?Ho; exact H.
Qed.

(** C2, the counterexample: the page size travels with a token that does not
    carry one, so the parameters sent are not the token's alone. *)
Lemma request_params_token_not_alone :
  let token : dict := {[ "page_info" := VStr "abc" ]} in
  let params :=
    request_params Orders (Config (VStr "2021-01-01") "shop") None
      (Some token) in
  params !! "limit" = Some (VInt 250)
  /\ token !! "limit" = None
  /\ params <> token.
Proof.
  vm_compute. repeat split. intros H. discriminate H.
Qed.

(** C2, as amended. For a request with a non-empty token the parameters sent
    are the token's own pairs and the page size, [limit], with the value 250
    unless the token has a [limit] of its own: no [order], no filter field,
    no [status] and no other parameter is added. *)
Theorem request_params_with_token :
  forall (c : stream_class) (cfg : config) (stream_state : option dict)
         (token : dict),
    dict_truthy token = true ->
    let params := request_params c cfg stream_state (Some token) in
    params = token ∪ {[ "limit" := VInt limit ]}
    /\ (forall k, k <> "limit"%string -> params !! k = token !! k)
    /\ params !! "limit" = Some (default (VInt limit) (token !! "limit")).
Proof.
  intros c cfg stream_state token Ht params. unfold params.
  rewrite (request_params_token _ _ _ _ Ht). split; [reflexivity|]. split.
  - intros k Hk. rewrite lookup_union, lookup_singleton_ne by done.
    now destruct (token !! k).
  - rewrite lookup_union, lookup_singleton_eq.
    now destruct (token !! "limit").
Qed.

Lemma request_params_with_token_witness :
  let token : dict := {[ "page_info" := VStr "abc"; "limit" := VStr "50" ]} in
  let params :=
    request_params Orders (Config (VStr "2021-01-01") "shop")
      (Some {[ "updated_at" := VStr "2021-02-01" ]}) (Some token) in
  params !! "order" = None
  /\ params !! "updated_at_min" = None
  /\ params !! "status" = None
  /\ params !! "limit" = Some (VStr "50").
Proof.
  intros token params.
  destruct (request_params_with_token Orders
              (Config (VStr "2021-01-01") "shop")
              (Some {[ "updated_at" := VStr "2021-02-01" ]}) token eq_refl)
    as (_ & Hk & Hl).
  split; [|split; [|split]].
  - exact (Hk "order"%string ltac:(discriminate)).
  - exact (Hk "updated_at_min"%string ltac:(discriminate)).
  - exact (Hk "status"%string ltac:(discriminate)).
  - exact Hl.
Defined.

(** C6. The first page of every incremental stream, requested without token,
    asks for the order ["<order_field> asc"] and sets the filter field to
    the cursor value of the current state when there is a state (the [None]
    of [dict.get] when the state lacks the cursor), to [start_date] when
    there is none, and to 0 when there is none for Collects and
    OrderRisks. *)
Theorem request_params_first_page :
  forall (c : stream_class) (cfg : config) (stream_state : option dict),
    let params := request_params c cfg stream_state None in
    params !! "order" = Some (VStr (order_field c +:+ " asc"))
    /\ params !! filter_field c =
         Some (if opt_truthy stream_state
               then py_get (default ∅ stream_state) (cursor_field c) VNone
               else if is_id_cursored c then VInt 0 else start_date cfg)
    /\ params !! "limit" = Some (VInt limit).
Proof.
  intros c cfg stream_state params. unfold params.
  destruct c; unfold request_params, status_request_params,
    id_request_params, IncrementalShopifyStream_request_params,
    ShopifyStream_request_params; simpl;
    destruct (opt_truthy stream_state); simpl;
    repeat split; now simplify_map_eq.
Qed.


(** ** The client-side filter *)

Lemma and_then_finished_l (o : outcome) : and_then finished o = o.
Proof. now destruct o. Qed.

Lemma and_then_finished_r (o : outcome) : and_then o finished = o.
Proof.
  destruct o as [es []]; unfold and_then; simpl; try reflexivity.
  now rewrite app_nil_r.
Qed.

Lemma and_then_yield (r : dict) (o : outcome) :
  and_then (yield r) o = Outcome (Yield r :: events o) (ending_of o).
Proof. reflexivity. Qed.

Lemma and_then_raised (e : exn) (o : outcome) :
  and_then (raised e) o = raised e.
Proof. reflexivity. Qed.

Lemma consume_of_list (records : list dict) :
  consume (of_list records) = Outcome (map Yield records) Finished.
Proof.
  unfold consume, of_list.
  induction records as [|r rs IH]; simpl; [reflexivity|].
  now rewrite IH.
Qed.

Lemma yielded_map_Yield (records : list dict) :
  omap (fun ev => match ev with Yield r => Some r | Sent _ => None end)
       (map Yield records) = records.
Proof. induction records as [|r rs IH]; simpl in *; [done|]. now f_equal. Qed.

Lemma requests_map_Yield (records : list dict) :
  omap (fun ev => match ev with Sent rq => Some rq | Yield _ => None end)
       (map Yield records) = [].
Proof. induction records as [|r rs IH]; simpl in *; done. Qed.

Lemma newer_than_state_comparable (cf : string) (s record : dict) :
  cursor_comparable cf (py_get s cf VNone) record ->
  newer_than_state cf s record
  = Ok (cursor_at_least cf (py_get s cf VNone) record).
Proof.
  intros (v & Hv & Hk). unfold newer_than_state, py_item, cursor_at_least.
  rewrite Hv. now destruct v, (py_get s cf VNone).
Qed.

Lemma newer_than_state_missing (cf : string) (s record : dict) :
  record !! cf = None -> newer_than_state cf s record = Raise KeyError.
Proof. intros H. unfold newer_than_state, py_item. now rewrite H. Qed.

Lemma newer_than_state_present (cf : string) (s record : dict) :
  is_Some (record !! cf) -> newer_than_state cf s record <> Raise KeyError.
Proof.
  intros [v Hv]. unfold newer_than_state, py_item. rewrite Hv.
  now destruct v, (py_get s cf VNone).
Qed.

(** The filter with a state, on a list whose first records are of the data
    model and are followed by [rest]. *)
Lemma filter_for_each_app (cf : string) (s : dict) (pre rest : list dict) :
  Forall (cursor_comparable cf (py_get s cf VNone)) pre ->
  for_each (pre ++ rest) (fun record =>
    match newer_than_state cf s record with
    | Ok true => yield record
    | Ok false => finished
    | Raise e => raised e
    end)
  = and_then
      (Outcome (map Yield (List.filter (cursor_at_least cf (py_get s cf VNone))
                             pre)) Finished)
      (for_each rest (fun record =>
         match newer_than_state cf s record with
         | Ok true => yield record
         | Ok false => finished
         | Raise e => raised e
         end)).
Proof.
  induction pre as [|r pre IH]; intros Hall; simpl.
  - now rewrite and_then_finished_l.
  - apply Forall_cons in Hall as [Hr Hall].
    rewrite (newer_than_state_comparable _ _ _ Hr), (IH Hall).
    destruct (cursor_at_least cf (py_get s cf VNone) r); simpl.
    + reflexivity.
    + now rewrite and_then_finished_l.
Qed.

Lemma filter_with_state (c : stream_class) (s : dict) (records : list dict)
    (body : dict -> outcome) :
  dict_truthy s = true ->
  filter_records_newer_than_state c (Some s) (of_list records) body
  = for_each records (fun record =>
      match newer_than_state (cursor_field c) s record with
      | Ok true => body record
      | Ok false => finished
      | Raise e => raised e
      end).
Proof.
  intros Hs. unfold filter_records_newer_than_state.
  assert (Ho : opt_truthy (Some s) = true) by exact Hs.
  now rewrite Ho.
Qed.

Lemma filter_without_state (c : stream_class) (stream_state : option dict)
    (records_slice : generator) :
  opt_truthy stream_state = false ->
  filter_records_newer_than_state c stream_state records_slice = records_slice.
Proof.
  intros Hs. unfold filter_records_newer_than_state. now rewrite Hs.
Qed.

(** C5. With a state that is not empty, on records of the data model (each
    has the cursor field, of the kind of the state's cursor),
    [filter_records_newer_than_state] yields the records whose cursor is
    greater than or equal to the state's, in their order, and nothing else;
    without state it yields every record. *)
Theorem filter_records_newer_than_state_keeps :
  forall (c : stream_class) (stream_state : option dict)
         (records : list dict),
    let o := consume (filter_records_newer_than_state c stream_state
                        (of_list records)) in
    (forall s : dict,
        stream_state = Some s ->
        dict_truthy s = true ->
        Forall (cursor_comparable (cursor_field c)
                  (py_get s (cursor_field c) VNone)) records ->
        ending_of o = Finished
        /\ yielded o =
             List.filter (cursor_at_least (cursor_field c)
                            (py_get s (cursor_field c) VNone)) records)
    /\ (opt_truthy stream_state = false ->
        ending_of o = Finished /\ yielded o = records).
Proof.
  intros c stream_state records o. split.
  - intros s -> Hs Hall. unfold o, consume.
    rewrite (filter_with_state _ _ _ _ Hs).
    rewrite <- (app_nil_r records) at 1 2.
    rewrite (filter_for_each_app _ _ _ [] Hall). simpl.
    rewrite and_then_finished_r. split; [reflexivity|].
    unfold yielded. simpl. apply yielded_map_Yield.
  - intros Hs. unfold o. rewrite (filter_without_state _ _ _ Hs).
    rewrite consume_of_list. split; [reflexivity|].
    unfold yielded. simpl. apply yielded_map_Yield.
Qed.

Lemma filter_records_newer_than_state_keeps_witness :
  let r1 : dict := {[ "created_at" := VStr "2021-05-01" ]} in
  let r2 : dict := {[ "created_at" := VStr "2021-06-01" ]} in
  let r3 : dict := {[ "created_at" := VStr "2021-07-01" ]} in
  yielded (consume (filter_records_newer_than_state OrderRefunds (Some r2)
                      (of_list [r1; r2; r3]))) = [r2; r3]
  /\ yielded (consume (filter_records_newer_than_state OrderRefunds None
                         (of_list [r1; r2]))) = [r1; r2].
Proof.
  intros r1 r2 r3. split.
  - refine (proj2 (proj1 (filter_records_newer_than_state_keeps OrderRefunds
                            (Some r2) [r1; r2; r3]) r2 eq_refl eq_refl _)).
    repeat apply Forall_cons_2; try apply Forall_nil_2;
      eexists; (split; [reflexivity|reflexivity]).
  - exact (proj2 (proj2 (filter_records_newer_than_state_keeps OrderRefunds
                           None [r1; r2]) eq_refl)).
Defined.


Lemma filter_ending_cons (cf : string) (s r : dict) (rs : list dict) :
  ending_of (for_each (r :: rs) (filter_step cf s))
  = match newer_than_state cf s r with
    | Ok _ => ending_of (for_each rs (filter_step cf s))
    | Raise e => Raised e
    end.
Proof.
  simpl. unfold filter_step at 1.
  now destruct (newer_than_state cf s r) as [[]|e].
Qed.

Lemma filter_missing_not_finished (cf : string) (s : dict)
    (records : list dict) :
  Exists (fun r => r !! cf = None) records ->
  ending_of (for_each records (filter_step cf s)) <> Finished.
Proof.
  induction records as [|r rs IH]; intros Hex.
  - now apply Exists_nil in Hex.
  - rewrite filter_ending_cons. apply Exists_cons in Hex as [Hr|Hrs].
    + now rewrite (newer_than_state_missing _ _ _ Hr).
    + destruct (newer_than_state cf s r); [now apply IH|done].
Qed.

Lemma filter_present_no_key_error (cf : string) (s : dict)
    (records : list dict) :
  Forall (fun r => is_Some (r !! cf)) records ->
  ending_of (for_each records (filter_step cf s)) <> Raised KeyError.
Proof.
  induction records as [|r rs IH]; intros Hall; [done|].
  apply Forall_cons in Hall as [Hr Hall]. rewrite filter_ending_cons.
  pose proof (newer_than_state_present cf s r Hr) as Hne.
  destruct (newer_than_state cf s r) as [b|e]; [now apply IH|].
  intros [= ->]. now apply Hne.
Qed.

Lemma filter_present_ending (cf : string) (s : dict) (records : list dict) :
  Forall (fun r => is_Some (r !! cf)) records ->
  ending_of (for_each records (filter_step cf s)) = Finished
  \/ ending_of (for_each records (filter_step cf s)) = Raised TypeError.
Proof.
  induction records as [|r rs IH]; intros Hall; [now left|].
  apply Forall_cons in Hall as [[v Hr] Hall]. rewrite filter_ending_cons.
  unfold newer_than_state, py_item. rewrite Hr.
  destruct v as [|x|x], (py_get s cf VNone) as [|y|y]; simpl; auto.
Qed.

(** C10, the counterexample: records that all have the cursor field do not
    make the filter total. A cursor that is [None], or a state that holds no
    cursor, makes the comparison raise [TypeError]. *)
Lemma filter_records_newer_than_state_not_total :
  let s : dict := {[ "created_at" := VStr "2021-06-01" ]} in
  let r : dict := {[ "created_at" := VNone ]} in
  let s' : dict := {[ "id" := VInt 5 ]} in
  let r' : dict := {[ "created_at" := VStr "2021-07-01" ]} in
  r !! "created_at" = Some VNone
  /\ consume (filter_records_newer_than_state OrderRefunds (Some s)
                (of_list [r])) = raised TypeError
  /\ r' !! "created_at" = Some (VStr "2021-07-01")
  /\ consume (filter_records_newer_than_state OrderRefunds (Some s')
                (of_list [r'])) = raised TypeError.
Proof. repeat split; reflexivity. Qed.

(** C10, as amended. With a state that is not empty the filter subscripts
    each record with the cursor field: a record without it ends the filter
    with an exception, [KeyError] after the records of the data model that
    precede it, of which those at or above the state's cursor have been
    yielded. When every record has the cursor field [KeyError] cannot be
    raised, and the filter runs to its end when moreover the cursor of every
    record is of the kind, string or integer, of the cursor of the state; a
    comparison between other values raises [TypeError]. Without state every
    record passes, with or without the cursor field. *)
Theorem filter_records_newer_than_state_key_error :
  forall (c : stream_class) (s : dict),
    dict_truthy s = true ->
    let cf := cursor_field c in
    let run records :=
      consume (filter_records_newer_than_state c (Some s) (of_list records)) in
    (forall (pre post : list dict) (r : dict),
        Forall (cursor_comparable cf (py_get s cf VNone)) pre ->
        r !! cf = None ->
        run (pre ++ r :: post)
        = Outcome (map Yield (List.filter (cursor_at_least cf (py_get s cf VNone))
                                pre))
                  (Raised KeyError))
    /\ (forall records : list dict,
          Exists (fun r => r !! cf = None) records ->
          ending_of (run records) <> Finished)
    /\ (forall records : list dict,
          Forall (fun r => is_Some (r !! cf)) records ->
          ending_of (run records) <> Raised KeyError)
    /\ (forall records : list dict,
          Forall (cursor_comparable cf (py_get s cf VNone)) records ->
          ending_of (run records) = Finished)
    /\ (forall (stream_state : option dict) (records : list dict),
          opt_truthy stream_state = false ->
          consume (filter_records_newer_than_state c stream_state
                     (of_list records))
          = Outcome (map Yield records) Finished)
    /\ (forall records : list dict,
          Forall (fun r => is_Some (r !! cf)) records ->
          ending_of (run records) = Finished
          \/ ending_of (run records) = Raised TypeError).
Proof.
  intros c s Hs cf run.
  assert (Hrun : forall records,
             run records = for_each records (filter_step cf s)).
  { intros records. unfold run, consume.
    now rewrite (filter_with_state _ _ _ _ Hs). }
  split; [|split; [|split; [|split; [|split]]]].
  - intros pre post r Hpre Hr. rewrite Hrun. unfold filter_step.
    rewrite (filter_for_each_app _ _ _ _ Hpre). simpl.
    rewrite (newer_than_state_missing _ _ _ Hr). simpl.
    unfold and_then. simpl. now rewrite app_nil_r.
  - intros records Hex. rewrite Hrun.
    now apply filter_missing_not_finished.
  - intros records Hall. rewrite Hrun.
    now apply filter_present_no_key_error.
  - intros records Hall. rewrite Hrun. unfold filter_step.
    rewrite <- (app_nil_r records).
    rewrite (filter_for_each_app _ _ _ [] Hall). reflexivity.
  - intros stream_state records Hst.
    rewrite (filter_without_state _ _ _ Hst). apply consume_of_list.
  - intros records Hall. rewrite Hrun. now apply filter_present_ending.
Qed.

Lemma filter_records_newer_than_state_key_error_witness :
  let r2 : dict := {[ "created_at" := VStr "2021-06-01" ]} in
  let r3 : dict := {[ "created_at" := VStr "2021-07-01" ]} in
  let bad : dict := {[ "id" := VInt 7 ]} in
  consume (filter_records_newer_than_state OrderRefunds (Some r2)
             (of_list [r3; bad; r3]))
  = Outcome [Yield r3] (Raised KeyError)
  /\ ending_of (consume (filter_records_newer_than_state OrderRefunds (Some r2)
                           (of_list [r3; r2]))) = Finished.
Proof.
  intros r2 r3 bad.
  destruct (filter_records_newer_than_state_key_error OrderRefunds r2 eq_refl)
    as (H1 & _ & _ & H4 & _).
  split.
  - refine (H1 [r3] [r3] bad _ eq_refl).
    apply Forall_cons_2; [|apply Forall_nil_2].
    eexists; split; reflexivity.
  - refine (H4 [r3; r2] _).
    repeat apply Forall_cons_2; try apply Forall_nil_2;
      eexists; split; reflexivity.
Defined.


(** ** The next-page token *)

Lemma py_dict_fold_lookup (pairs : list (string * string)) :
  forall (d : dict) (k : string),
    fold_left (fun d kv => <[ kv.1 := VStr kv.2 ]> d) pairs d !! k
    = match last_value k pairs with
      | Some v => Some (VStr v)
      | None => d !! k
      end.
Proof.
  induction pairs as [|kv rest IH]; intros d k; simpl; [reflexivity|].
  rewrite IH. destruct (last_value k rest); [reflexivity|].
  destruct (String.eqb_spec kv.1 k) as [<-|Hne].
  - apply lookup_insert_eq.
  - now apply lookup_insert_ne.
Qed.

(** In [dict(pairs)] a name has the value of its last pair. *)
Lemma py_dict_lookup (pairs : list (string * string)) (k : string) :
  py_dict pairs !! k = VStr <$> last_value k pairs.
Proof.
  unfold py_dict. rewrite py_dict_fold_lookup, lookup_empty.
  now destruct (last_value k pairs).
Qed.

Lemma last_value_head (kv : string * string)
    (rest : list (string * string)) :
  is_Some (last_value kv.1 (kv :: rest)).
Proof.
  simpl. destruct (last_value kv.1 rest); [eauto|].
  rewrite String.eqb_refl. eauto.
Qed.

(** [dict(pairs)] is empty for no pair only. *)
Lemma py_dict_falsy (pairs : list (string * string)) :
  dict_truthy (py_dict pairs) = false <-> pairs = [].
Proof.
  split.
  - intros H. apply dict_truthy_false in H.
    destruct pairs as [|kv rest]; [reflexivity|].
    destruct (last_value_head kv rest) as [v Hv].
    pose proof (py_dict_lookup (kv :: rest) kv.1) as Hl.
    rewrite H, lookup_empty, Hv in Hl. discriminate.
  - intros ->. reflexivity.
Qed.

(** C7, the counterexample: a next link that is no URL is never answered with
    [None], whatever the library makes of it. For the first one [urlparse]
    finds no query and the token is the empty dict; the second one it
    refuses, and its [ValueError] ends the read. *)
Lemma next_page_token_malformed_link :
  (forall lib : urllib,
      next_page_token lib {[ "next" := {[ "url" := "not a url"%string;
                                          "rel" := "next"%string ]} ]}
      <> Ok None)
  /\ (forall lib : urllib,
        next_page_token lib
          {[ "next" := {[ "url" := "https://[shop/x?page_info=a"%string;
                          "rel" := "next"%string ]} ]}
        <> Ok None)
  /\ next_page_token (Urllib (fun _ => Ok EmptyString) (fun _ => []))
       {[ "next" := {[ "url" := "not a url"%string;
                       "rel" := "next"%string ]} ]}
     = Ok (Some ∅)
  /\ next_page_token (Urllib (fun _ => Raise ValueError) (fun _ => []))
       {[ "next" := {[ "url" := "https://[shop/x?page_info=a"%string;
                       "rel" := "next"%string ]} ]}
     = Raise ValueError.
Proof.
  split; [|split; [|split]]; try reflexivity;
    intros lib; unfold next_page_token;
    rewrite lookup_singleton_eq;
    (rewrite dict_truthy_true by (intros H;
       apply (f_equal (fun m : gmap string string => m !! "url")) in H;
       discriminate H));
    now destruct (urlparse_query lib _).
Qed.

(** C7, as amended. [next_page_token] returns [None] exactly when the links
    of the response have no entry ["next"], or an empty one. With an entry
    it makes no check of the link: an exception that [urlparse] raises on the
    url of the entry is its exception, and otherwise it returns the mapping
    of the query parameters that [parse_qsl] reads in the query of that url,
    each name with the value of its last occurrence; this mapping is the
    empty dict, not [None], exactly when [parse_qsl] reads no parameter. *)
Theorem next_page_token_links :
  forall (lib : urllib) (links : links_dict),
    (next_page_token lib links = Ok None
     <-> links !! "next" = None \/ links !! "next" = Some ∅)
    /\ (forall next_page : gmap string string,
          links !! "next" = Some next_page ->
          dict_truthy next_page = true ->
          (forall e : exn,
              urlparse_query lib (next_page !! "url") = Raise e ->
              next_page_token lib links = Raise e)
          /\ (forall query : string,
                urlparse_query lib (next_page !! "url") = Ok query ->
                exists token : dict,
                  next_page_token lib links = Ok (Some token)
                  /\ (forall k, token !! k
                                = VStr <$> last_value k (parse_qsl lib query))
                  /\ (dict_truthy token = false
                      <-> parse_qsl lib query = []))).
Proof.
  intros lib links. unfold next_page_token.
  destruct (links !! "next") as [next_page|] eqn:E.
  - split.
    + destruct (dict_truthy next_page) eqn:Et.
      * split.
        -- now destruct (urlparse_query lib (next_page !! "url")).
        -- intros [H|[= ->]]; [discriminate|].
           now rewrite dict_truthy_empty in Et.
      * split; [|reflexivity]. intros _. right. f_equal.
        now apply dict_truthy_false.
    + intros np [= <-] Ht. rewrite Ht. split.
      * intros e He. now rewrite He.
      * intros query Hq. rewrite Hq. eexists. split; [reflexivity|]. split.
        -- intros k. apply py_dict_lookup.
        -- apply py_dict_falsy.
  - split; [|discriminate]. split; auto.
Qed.

Lemma next_page_token_links_witness :
  let next_page : gmap string string :=
    {[ "url" :=
         "https://shop.myshopify.com/admin/api/2021-07/orders.json?limit=250&page_info=abc"%string;
       "rel" := "next"%string ]} in
  let links : links_dict := {[ "next" := next_page ]} in
  (exists token : dict,
      next_page_token example_urllib links = Ok (Some token)
      /\ token !! "page_info" = Some (VStr "abc")
      /\ token !! "limit" = Some (VStr "250"))
  /\ next_page_token refusing_urllib links = Raise ValueError.
Proof.
  intros next_page links.
  assert (Hn : links !! "next" = Some next_page) by reflexivity.
  assert (Ht : dict_truthy next_page = true) by reflexivity.
  split.
  - assert (Hq : urlparse_query example_urllib (next_page !! "url")
                 = Ok "limit=250&page_info=abc"%string) by reflexivity.
    destruct (proj2 (proj2 (next_page_token_links example_urllib links)
                       next_page Hn Ht) _ Hq) as (token & Htok & Hk & _).
    exists token. split; [exact Htok|].
    split; [exact (Hk "page_info"%string)|exact (Hk "limit"%string)].
  - assert (Hq : urlparse_query refusing_urllib (next_page !! "url")
                 = Raise ValueError) by reflexivity.
    exact (proj1 (proj2 (next_page_token_links refusing_urllib links)
                    next_page Hn Ht) ValueError Hq).
Defined.

(** ** Generators and their consumers *)

Lemma and_then_assoc (a b c : outcome) :
  and_then (and_then a b) c = and_then a (and_then b c).
Proof.
  destruct a as [ea []], b as [eb []], c as [ec ?]; unfold and_then; simpl;
    rewrite ?app_assoc; reflexivity.
Qed.

Lemma and_then_not_finished (o o' : outcome) :
  ending_of o <> Finished -> and_then o o' = o.
Proof. unfold and_then. now destruct (ending_of o). Qed.

Lemma and_then_ending (o o' : outcome) :
  ending_of o' <> Finished -> ending_of (and_then o o') <> Finished.
Proof. unfold and_then. now destruct (ending_of o) eqn:E; simpl; rewrite ?E. Qed.

Lemma resume_ending (es : list event) (e : ending) (body : dict -> outcome) :
  e <> Finished -> ending_of (resume es e body) <> Finished.
Proof.
  intros He. induction es as [|[rq|r] es IH]; cbn [resume]; [done| |];
    now apply and_then_ending.
Qed.

Lemma resume_app (es1 es2 : list event) (e : ending)
    (body : dict -> outcome) :
  resume (es1 ++ es2) e body
  = and_then (resume es1 Finished body) (resume es2 e body).
Proof.
  induction es1 as [|[rq|r] es1 IH]; simpl.
  - now rewrite and_then_finished_l.
  - now rewrite IH, and_then_assoc.
  - now rewrite IH, and_then_assoc.
Qed.

Lemma feed_and_then (o1 o2 : outcome) (body : dict -> outcome) :
  feed (and_then o1 o2) body = and_then (feed o1 body) (feed o2 body).
Proof.
  unfold feed. destruct o1 as [es1 e1]. destruct e1.
  - unfold and_then at 1. simpl. apply resume_app.
  - rewrite and_then_not_finished by done. simpl.
    rewrite and_then_not_finished; [done|]. now apply resume_ending.
  - rewrite and_then_not_finished by done. simpl.
    rewrite and_then_not_finished; [done|]. now apply resume_ending.
Qed.

Lemma feed_for_each (records : list dict) (body : dict -> outcome) :
  feed (for_each records yield) body = for_each records body.
Proof.
  induction records as [|r rs IH]; simpl; [reflexivity|].
  rewrite feed_and_then, IH. f_equal.
  unfold feed. simpl. apply and_then_finished_r.
Qed.

(** The page loop is a generator: run with a body, it does what it does for
    a caller that takes every record, the body running at each yield. *)
Lemma page_loop_feed (lib : urllib) (send : request -> response) (cfg : config)
    (fuel : nat) (c : stream_class) (stream_state : dict)
    (stream_slice token : option dict) (body : dict -> outcome) :
  page_loop lib send cfg fuel c stream_state stream_slice token body
  = feed (page_loop lib send cfg fuel c stream_state stream_slice token yield)
         body.
Proof.
  revert token. induction fuel as [|fuel IH]; intros token; simpl.
  - reflexivity.
  - destruct (path c stream_slice) as [p|e]; [|reflexivity].
    rewrite !feed_and_then, feed_for_each. f_equal. f_equal.
    destruct (next_page_token lib _) as [token'|e]; [|reflexivity].
    destruct (opt_truthy token'); [apply IH|reflexivity].
Qed.

(** Every pass finishing, the events are the generator's with the passes in
    the place of the yields. *)
Lemma resume_finished (es : list event) (body : dict -> outcome) :
  Forall (fun r => ending_of (body r) = Finished)
         (omap (fun ev => match ev with Yield r => Some r | Sent _ => None end)
               es) ->
  resume es Finished body = Outcome (flat_map (splice body) es) Finished.
Proof.
  induction es as [|[rq|r] es IH]; simpl; intros Hall.
  - reflexivity.
  - now rewrite (IH Hall).
  - apply Forall_cons in Hall as [Hr Hall]. rewrite (IH Hall).
    unfold and_then. now rewrite Hr.
Qed.

Lemma requests_and_then (P : request -> Prop) (o1 o2 : outcome) :
  Forall P (requests o1) -> Forall P (requests o2) ->
  Forall P (requests (and_then o1 o2)).
Proof.
  intros H1 H2. unfold and_then. destruct (ending_of o1); try done.
  unfold requests in *. simpl. rewrite omap_app. now apply Forall_app.
Qed.

Lemma requests_for_each (P : request -> Prop) (records : list dict)
    (body : dict -> outcome) :
  (forall r, Forall P (requests (body r))) ->
  Forall P (requests (for_each records body)).
Proof.
  intros Hb. induction records as [|r rs IH]; simpl.
  - apply Forall_nil_2.
  - now apply requests_and_then.
Qed.

(** Every request of a page loop goes to the path of the stream for the
    slice. *)
Lemma page_loop_requests (lib : urllib) (send : request -> response) (cfg : config)
    (fuel : nat) (c : stream_class) (stream_state : dict)
    (stream_slice token : option dict) (body : dict -> outcome) (p : string) :
  path c stream_slice = Ok p ->
  (forall r, Forall (fun rq => req_path rq = p) (requests (body r))) ->
  Forall (fun rq => req_path rq = p)
    (requests (page_loop lib send cfg fuel c stream_state stream_slice token body)).
Proof.
  intros Hp Hb. revert token.
  induction fuel as [|fuel IH]; intros token; simpl.
  - apply Forall_nil_2.
  - rewrite Hp. apply requests_and_then.
    + apply Forall_cons_2; [reflexivity|apply Forall_nil_2].
    + apply requests_and_then; [now apply requests_for_each|].
      destruct (next_page_token lib _) as [token'|e]; [|apply Forall_nil_2].
      destruct (opt_truthy token'); [apply IH|apply Forall_nil_2].
Qed.

Lemma path_order_substream (c : stream_class) (order_id : value) :
  is_order_substream c = true ->
  path c (Some {[ "order_id" := order_id ]}) = Ok (order_path c order_id).
Proof.
  intros Hc. destruct c; try discriminate Hc; unfold path, slice_item, py_item;
    now rewrite lookup_singleton_eq.
Qed.

Lemma filter_body_requests (P : request -> Prop) (cf : string)
    (s record : dict) :
  Forall P (requests
    match newer_than_state cf s record with
    | Ok true => yield record
    | Ok false => finished
    | Raise e => raised e
    end).
Proof. destruct (newer_than_state cf s record) as [[]|e]; apply Forall_nil_2. Qed.


Lemma order_cycle_requests (lib : urllib) (send : request -> response) (cfg : config)
    (fuel : nat) (c : stream_class) (stream_state : option dict)
    (data : dict) (order_id : value) :
  is_order_substream c = true ->
  data !! "id" = Some order_id ->
  Forall (fun rq => req_path rq = order_path c order_id)
    (requests (order_cycle lib send cfg fuel c stream_state data)).
Proof.
  intros Hc Hid. unfold order_cycle, py_item. rewrite Hid.
  unfold consume, filter_records_newer_than_state, HttpStream_read_records.
  destruct (opt_truthy stream_state);
    apply page_loop_requests with (p := order_path c order_id);
    try (now apply path_order_substream); intros r.
  - apply filter_body_requests.
  - apply Forall_nil_2.
Qed.

Lemma order_cycle_first_request (lib : urllib) (send : request -> response) (cfg : config)
    (fuel : nat) (c : stream_class) (stream_state : option dict)
    (data : dict) (order_id : value) :
  is_order_substream c = true ->
  data !! "id" = Some order_id ->
  head (events (order_cycle lib send cfg (S fuel) c stream_state data))
  = Some (Sent (Request (order_path c order_id)
                        (request_params c cfg None None))).
Proof.
  intros Hc Hid. unfold order_cycle, py_item. rewrite Hid.
  unfold consume, filter_records_newer_than_state, HttpStream_read_records.
  destruct (opt_truthy stream_state); cbn [page_loop default];
    rewrite (path_order_substream _ _ Hc), request_params_no_state;
    reflexivity.
Qed.

Lemma parent_first_request (lib : urllib) (send : request -> response) (cfg : config)
    (fuel : nat) (orders_stream_state : option dict) :
  head (requests (consume (HttpStream_read_records lib send cfg (S fuel) Orders
                             orders_stream_state None)))
  = Some (Request "orders.json"
            (request_params Orders cfg orders_stream_state None)).
Proof.
  unfold consume, HttpStream_read_records. cbn [page_loop path].
  destruct orders_stream_state as [d|]; cbn [default];
    rewrite ?request_params_no_state; reflexivity.
Qed.

(** C8. Reading a child stream of orders reads the parent stream Orders from
    the state bridged under ["orders"] and runs, at each parent record
    yielded and before the parent goes on, one fetch cycle of the child
    through [filter_records_newer_than_state]; every request of that cycle,
    and it sends one at least, goes to [orders/<id>/<data_field>.json] with
    the identifier of that record. When the parent read and every cycle
    finish, the events of the read are the parent's, each parent record
    replaced by the events of its cycle. *)
Theorem order_substream_read_records :
  forall (lib : urllib) (send : request -> response) (cfg : config) (fuel : nat)
         (c : stream_class) (tmp_stream_state : bridge)
         (stream_state stream_slice : option dict),
    is_order_substream c = true ->
    let parent :=
      consume (HttpStream_read_records lib send cfg fuel Orders
                 (tmp_stream_state !! "orders") None) in
    let cycle := order_cycle lib send cfg fuel c stream_state in
    let reading :=
      consume (read_records lib send cfg fuel c tmp_stream_state stream_state
                 stream_slice) in
    reading = feed parent cycle
    /\ (forall n, fuel = S n ->
          head (requests parent)
          = Some (Request "orders.json"
                    (request_params Orders cfg (tmp_stream_state !! "orders")
                       None)))
    /\ (forall (data : dict) (order_id : value),
          data !! "id" = Some order_id ->
          cycle data
          = consume (filter_records_newer_than_state c stream_state
                       (HttpStream_read_records lib send cfg fuel c None
                          (Some {[ "order_id" := order_id ]})))
          /\ Forall (fun rq => req_path rq = order_path c order_id)
                    (requests (cycle data))
          /\ (forall n, fuel = S n ->
                head (events (cycle data))
                = Some (Sent (Request (order_path c order_id)
                                      (request_params c cfg None None)))))
    /\ (ending_of parent = Finished ->
        Forall (fun data => ending_of (cycle data) = Finished)
               (yielded parent) ->
        reading = Outcome (flat_map (splice cycle) (events parent)) Finished).
Proof.
  intros lib send cfg fuel c b stream_state stream_slice Hc parent cycle reading.
  assert (Hfeed : reading = feed parent cycle).
  { unfold reading, parent, cycle, consume.
    destruct c; try discriminate Hc;
      exact (page_loop_feed _ _ _ _ _ _ _ _ _). }
  split; [exact Hfeed|]. split; [|split].
  - intros n ->. apply parent_first_request.
  - intros data order_id Hid. split; [|split].
    + unfold cycle, order_cycle, py_item. now rewrite Hid.
    + now apply order_cycle_requests.
    + intros n ->. now apply order_cycle_first_request.
  - intros Hend Hall. rewrite Hfeed. unfold feed. rewrite Hend.
    now apply resume_finished.
Qed.

Lemma order_substream_read_records_witness :
  let cfg := Config (VStr "2020-01-01") "x" in
  let state : option dict :=
    Some {[ "created_at" := VStr "2021-06-01" ]} in
  let reading :=
    consume (read_records example_urllib example_shop cfg 5 OrderRefunds ∅ state None) in
  map req_path (requests reading)
  = [ "orders.json"; "orders/1/refunds.json"; "orders/2/refunds.json";
      "orders.json"; "orders/3/refunds.json" ]%string
  /\ length (yielded reading) = 6%nat
  /\ ending_of reading = Finished.
Proof.
  intros cfg state reading.
  destruct (order_substream_read_records example_urllib example_shop cfg 5 OrderRefunds ∅
              state None eq_refl) as (_ & _ & _ & H).
  assert (Hall : Forall
            (fun data => ending_of (order_cycle example_urllib example_shop cfg 5 OrderRefunds
                                      state data) = Finished)
            (yielded (consume (HttpStream_read_records example_urllib example_shop cfg 5
                                 Orders ((∅ : bridge) !! "orders") None)))).
  { repeat apply Forall_cons_2; try apply Forall_nil_2; reflexivity. }
  unfold reading. rewrite (H eq_refl Hall).
  repeat split; reflexivity.
Defined.

(** * Further properties of the code *)

(** ** The shared object under an update *)

(** X1. Whatever the values and whether or not it raises,
    [stream_state_to_tmp] leaves the entries of the other streams as they
    are, and the entry of its own stream is the one it found or a dict with
    the cursor field as its only key. [get_updated_state] therefore changes
    no entry but its stream's, and for Collects and OrderRisks it changes
    none. *)
Theorem bridge_update_frame :
  forall (stream_name cf : string) (cur latest : dict) (b : bridge),
    let b' := exec (stream_state_to_tmp stream_name cur latest cf) b in
    (forall n, n <> stream_name -> b' !! n = b !! n)
    /\ (b' !! stream_name = b !! stream_name
        \/ exists v, b' !! stream_name = Some {[ cf := v ]})
    /\ (forall (c : stream_class) (n : string),
          n <> name c ->
          exec (get_updated_state c cur latest) b !! n = b !! n)
    /\ (forall c : stream_class,
          is_id_cursored c = true ->
          exec (get_updated_state c cur latest) b = b).
Proof.
  assert (Hframe : forall sn k (cur latest : dict) (b : bridge) n,
             n <> sn ->
             exec (stream_state_to_tmp sn cur latest k) b !! n = b !! n).
  { intros sn k cur latest b n Hn. unfold exec, stream_state_to_tmp.
    unfold_M. destruct (dict_truthy cur); [|reflexivity].
    destruct (py_min (py_get cur k (VStr "")) (py_get latest k (VStr "")));
      simpl; [|reflexivity].
    destruct (py_truthy _); simpl.
    - destruct (py_min _ _); simpl; now rewrite !lookup_insert_ne.
    - now rewrite lookup_insert_ne. }
  intros stream_name cf cur latest b b'. split; [|split; [|split]].
  - intros n Hn. now apply Hframe.
  - unfold b', exec, stream_state_to_tmp. unfold_M.
    destruct (dict_truthy cur); [|now left].
    destruct (py_min (py_get cur cf (VStr "")) (py_get latest cf (VStr "")));
      simpl; [|now left].
    right. destruct (py_truthy _); simpl.
    + destruct (py_min _ _); simpl; rewrite ?lookup_insert_eq; eauto.
    + rewrite lookup_insert_eq. eauto.
  - intros c n Hn. unfold get_updated_state.
    destruct (is_id_cursored c).
    + unfold exec, id_get_updated_state. unfold_M. now destruct (py_max _ _).
    + unfold exec, IncrementalShopifyStream_get_updated_state.
      unfold mbind, M_bind, bind.
      pose proof (Hframe (name c) (cursor_field c) cur latest b n Hn) as H.
      unfold exec in H.
      destruct (stream_state_to_tmp (name c) cur latest (cursor_field c) b)
        as [b1 [[]|e]]; simpl in *; [|exact H].
      unfold_M. now destruct (py_max _ _).
  - intros c Hc. unfold exec, get_updated_state. rewrite Hc.
    unfold id_get_updated_state. unfold_M. now destruct (py_max _ _).
Qed.

Lemma bridge_update_frame_witness :
  let b : bridge := {[ "price_rules" := {[ "updated_at" := VStr "2021-01-01" ]} ]} in
  let cur : dict := {[ "updated_at" := VStr "2021-02-01" ]} in
  let latest : dict := {[ "updated_at" := VStr "2021-03-01" ]} in
  exec (get_updated_state Orders cur latest) b !! "price_rules"
  = Some ({[ "updated_at" := VStr "2021-01-01" ]} : dict)
  /\ exec (get_updated_state OrderRisks cur latest) b = b.
Proof.
  intros b cur latest.
  destruct (bridge_update_frame "orders" "updated_at" cur latest b)
    as (_ & _ & H3 & H4).
  split.
  - rewrite (H3 Orders "price_rules"%string ltac:(discriminate)).
    reflexivity.
  - exact (H4 OrderRisks eq_refl).
Defined.

(** ** Cursors of the wrong type *)

(** X2. The default rule of [get_updated_state] compares with the empty
    string: on a record whose cursor is an integer, with a state that does
    not hold the cursor field, it raises [TypeError]. The rule of Collects
    and OrderRisks compares with 0 and raises [TypeError] on a string cursor
    in the same situation. In both cases the shared object is unchanged. *)
Theorem get_updated_state_type_error :
  forall (c : stream_class) (cur latest : dict) (b : bridge),
    cur !! cursor_field c = None ->
    (forall z : Z,
        is_id_cursored c = false ->
        latest !! cursor_field c = Some (VInt z) ->
        get_updated_state c cur latest b = (b, Raise TypeError))
    /\ (forall s : string,
          is_id_cursored c = true ->
          latest !! cursor_field c = Some (VStr s) ->
          get_updated_state c cur latest b = (b, Raise TypeError)).
Proof.
  intros c cur latest b Hcur. split.
  - intros z Hc Hl. unfold get_updated_state. rewrite Hc.
    unfold IncrementalShopifyStream_get_updated_state, stream_state_to_tmp.
    unfold_M. unfold py_get. rewrite Hcur, Hl. simpl.
    now destruct (dict_truthy cur).
  - intros s Hc Hl. unfold get_updated_state. rewrite Hc.
    unfold id_get_updated_state. unfold_M. unfold py_get.
    now rewrite Hcur, Hl.
Qed.

Lemma get_updated_state_type_error_witness :
  get_updated_state Orders ∅ {[ "updated_at" := VInt 5 ]} ∅
  = (∅, Raise TypeError)
  /\ get_updated_state Collects ∅ {[ "id" := VStr "5" ]} ∅
     = (∅, Raise TypeError).
Proof.
  destruct (get_updated_state_type_error Orders (∅ : dict)
              {[ "updated_at" := VInt 5 ]} ∅ (lookup_empty _)) as [H1 _].
  destruct (get_updated_state_type_error Collects (∅ : dict)
              {[ "id" := VStr "5" ]} ∅ (lookup_empty _)) as [_ H2].
  split; [exact (H1 5 eq_refl eq_refl)|exact (H2 "5"%string eq_refl eq_refl)].
Defined.

(** ** The parameters of a request *)

(** X3. Without token, the parameters of a request are [limit], [order] and
    the filter field of the stream, and for Orders and AbandonedCheckouts
    also [status], with the value ["any"]; no stream sends anything else on
    its first page. *)
Theorem request_params_first_page_keys :
  forall (c : stream_class) (cfg : config) (stream_state : option dict),
    let params := request_params c cfg stream_state None in
    dom params
    = {[ "limit"%string; "order"%string; filter_field c ]}
      ∪ (match c with
         | Orders | AbandonedCheckouts => {[ "status"%string ]}
         | _ => ∅
         end : gset string)
    /\ params !! "status"
       = match c with
         | Orders | AbandonedCheckouts => Some (VStr "any")
         | _ => None
         end.
Proof.
  intros c cfg stream_state params. unfold params.
  destruct c; unfold request_params, status_request_params,
    id_request_params, IncrementalShopifyStream_request_params,
    ShopifyStream_request_params; simpl;
    destruct (opt_truthy stream_state); simpl;
    (split; [rewrite ?dom_insert_L, dom_singleton_L; set_solver
            |now simplify_map_eq]).
Qed.

(** X4. A token that carries a [limit], as the next link of the API does, is
    sent as it is: the parameters of the request are the token and nothing
    else, whatever the stream and its state. *)
Theorem request_params_token_with_limit :
  forall (c : stream_class) (cfg : config) (stream_state : option dict)
         (token : dict) (v : value),
    token !! "limit" = Some v ->
    request_params c cfg stream_state (Some token) = token.
Proof.
  intros c cfg stream_state token v Hv.
  assert (Ht : dict_truthy token = true).
  { apply dict_truthy_true. intros ->. now rewrite lookup_empty in Hv. }
  rewrite (request_params_token _ _ _ _ Ht).
  apply map_eq. intros k. rewrite lookup_union.
  destruct (decide (k = "limit"%string)) as [->|Hk].
  - now rewrite Hv, lookup_singleton_eq.
  - rewrite lookup_singleton_ne by done. now destruct (token !! k).
Qed.

Lemma request_params_token_with_limit_witness :
  let links : links_dict :=
    {[ "next" := {[ "url" :=
         "https://shop.myshopify.com/admin/api/2021-07/orders.json?limit=250&page_info=abc"%string ]} ]} in
  exists token,
    next_page_token example_urllib links = Ok (Some token)
    /\ request_params Orders (Config (VStr "2021-01-01") "shop")
         (Some {[ "updated_at" := VStr "2021-02-01" ]}) (Some token)
       = token.
Proof.
  intros links. eexists. split; [reflexivity|].
  apply (request_params_token_with_limit Orders
           (Config (VStr "2021-01-01") "shop")
           (Some {[ "updated_at" := VStr "2021-02-01" ]}))
    with (v := VStr "250").
  reflexivity.
Defined.

(** ** Endpoint paths *)

Lemma string_app_cons (x : ascii) (a b : string) :
  String x a +:+ b = String x (a +:+ b).
Proof. reflexivity. Qed.

Lemma string_length_app (a b : string) :
  String.length (a +:+ b) = (String.length a + String.length b)%nat.
Proof.
  induction a as [|x a IH]; [reflexivity|].
  rewrite string_app_cons. simpl. now rewrite IH.
Qed.

Lemma string_app_inv_tail (a b t : string) : a +:+ t = b +:+ t -> a = b.
Proof.
  revert b. induction a as [|x a IH]; intros [|y b] H.
  - reflexivity.
  - apply (f_equal String.length) in H.
    rewrite !string_length_app in H. simpl in H. lia.
  - apply (f_equal String.length) in H.
    rewrite !string_length_app in H. simpl in H. lia.
  - rewrite !string_app_cons in H. injection H as -> H. f_equal.
    now apply IH.
Qed.

Lemma string_app_inv_head (pre a b : string) :
  pre +:+ a = pre +:+ b -> a = b.
Proof.
  induction pre as [|x pre IH]; intros H; [exact H|].
  rewrite !string_app_cons in H. injection H as H. now apply IH.
Qed.

Lemma to_int_not_nil (z : Z) : Z.to_int z <> Decimal.Pos Decimal.Nil
                                 /\ Z.to_int z <> Decimal.Neg Decimal.Nil.
Proof.
  destruct z as [|q|q]; simpl; split; try discriminate;
    intros [= H]; now apply (Unsigned.to_uint_nonnil q).
Qed.

(** The decimal writing of an integer determines it. *)
Lemma py_str_int_inj (x y : Z) : py_str (VInt x) = py_str (VInt y) -> x = y.
Proof.
  simpl. intros H. apply (f_equal NilZero.int_of_string) in H.
  destruct (to_int_not_nil x) as [Hx1 Hx2].
  destruct (to_int_not_nil y) as [Hy1 Hy2].
  rewrite !NilZero.isi in H by assumption.
  injection H as H. apply (f_equal Z.of_int) in H.
  now rewrite !DecimalZ.of_to in H.
Qed.

(** X5. The streams that are not sub-streams have the path
    [<data_field>.json], with or without slice. A sub-stream without slice
    raises [TypeError] and with a slice that lacks the parent's identifier
    [KeyError]; two integer identifiers with the same path are the same
    identifier. *)
Theorem path_of_slice :
  forall c : stream_class,
    (slice_key c = None ->
     forall stream_slice, path c stream_slice = Ok (data_field c +:+ ".json"))
    /\ (forall k : string,
          slice_key c = Some k ->
          path c None = Raise TypeError
          /\ (forall d : dict, d !! k = None -> path c (Some d) = Raise KeyError)
          /\ (forall x y : Z,
                path c (Some {[ k := VInt x ]}) = path c (Some {[ k := VInt y ]}) ->
                x = y)).
Proof.
  intros c. split.
  - intros Hk stream_slice. now destruct c.
  - intros k Hk.
    destruct c; try discriminate Hk; injection Hk as <-;
      (split; [reflexivity|split];
       [intros d Hd; unfold path, slice_item, py_item; now rewrite Hd
       |intros x y; unfold path, slice_item, py_item;
        rewrite !lookup_singleton_eq; intros [= H];
        apply string_app_inv_head, string_app_inv_tail in H;
        now apply py_str_int_inj]).
Qed.

Lemma path_of_slice_witness :
  path Orders None = Ok "orders.json"%string
  /\ path Transactions None = Raise TypeError
  /\ path DiscountCodes (Some {[ "id" := VInt 1 ]}) = Raise KeyError.
Proof.
  split; [|split].
  - exact (proj1 (path_of_slice Orders) eq_refl None).
  - exact (proj1 (proj2 (path_of_slice Transactions) "order_id"%string eq_refl)).
  - exact (proj1 (proj2 (proj2 (path_of_slice DiscountCodes)
                           "price_rule_id"%string eq_refl))
             {[ "id" := VInt 1 ]} eq_refl).
Defined.

(** ** A sync, update after update *)

Lemma str_max_le (a b m : string) :
  String.leb a m = true -> String.leb b m = true ->
  String.leb (str_max a b) m = true.
Proof. intros Ha Hb. now destruct (str_max_cases a b) as [-> | ->]. Qed.

Lemma str_max_list_ge_init (ls : list string) (a : string) :
  String.leb a (str_max_list a ls) = true.
Proof.
  unfold str_max_list. revert a.
  induction ls as [|l ls IH]; intros a; simpl; [apply string_leb_refl|].
  eapply string_leb_trans; [apply (str_max_ge_r l a)|apply IH].
Qed.

Lemma str_max_list_ge (ls : list string) (a : string) :
  Forall (fun l => String.leb l (str_max_list a ls) = true) ls.
Proof.
  unfold str_max_list. revert a.
  induction ls as [|l ls IH]; intros a; simpl; [apply Forall_nil_2|].
  apply Forall_cons_2; [|apply IH].
  eapply string_leb_trans; [apply (str_max_ge_l l a)|].
  apply str_max_list_ge_init.
Qed.

Lemma str_max_list_in (ls : list string) (a : string) :
  str_max_list a ls ∈ a :: ls.
Proof.
  unfold str_max_list. revert a.
  induction ls as [|l ls IH]; intros a; simpl; [apply list_elem_of_here|].
  specialize (IH (str_max l a)). apply elem_of_cons in IH as [IH|IH].
  - rewrite IH. destruct (str_max_cases l a) as [-> | ->];
      [apply list_elem_of_further, list_elem_of_here|apply list_elem_of_here].
  - now apply list_elem_of_further, list_elem_of_further.
Qed.

(** The largest timestamp does not depend on the order. *)
Lemma str_max_list_perm (ls ls' : list string) (a : string) :
  ls ≡ₚ ls' -> str_max_list a ls = str_max_list a ls'.
Proof.
  intros Hp.
  assert (Hle : forall k k', k ≡ₚ k' ->
             String.leb (str_max_list a k) (str_max_list a k') = true).
  { intros k k' Hk. pose proof (str_max_list_in k a) as Hin.
    remember (str_max_list a k) as m eqn:Em. clear Em.
    apply elem_of_cons in Hin as [-> | Hin].
    - apply str_max_list_ge_init.
    - rewrite Hk in Hin. pose proof (str_max_list_ge k' a) as Hall.
      rewrite Forall_forall in Hall. now apply Hall. }
  apply String.leb_antisym; apply Hle; [done|by symmetry].
Qed.

(** The default update on timestamps, with the shared object it leaves. *)
Lemma get_updated_state_timestamps_bridge (c : stream_class)
    (cur latest : dict) (b : bridge) (a l p : string) :
  is_id_cursored c = false ->
  str_field cur (cursor_field c) = Some a ->
  str_field latest (cursor_field c) = Some l ->
  bridged b (name c) (cursor_field c) = VStr p ->
  get_updated_state c cur latest b
  = ((if dict_truthy cur
      then <[ name c := {[ cursor_field c :=
                VStr (if (p =? "")%string then str_min a l
                      else str_min a p) ]} ]> b
      else b),
     Ok {[ cursor_field c := VStr (str_max l a) ]}).
Proof.
  intros Hc Ha Hl Hp. unfold get_updated_state. rewrite Hc.
  unfold IncrementalShopifyStream_get_updated_state.
  unfold mbind, M_bind, bind.
  destruct (dict_truthy cur) eqn:Et.
  - rewrite (stream_state_to_tmp_timestamps _ _ _ _ _ _ _ _ Et Ha Hl Hp).
    unfold_M. rewrite (str_field_get _ _ _ Ha), (str_field_get _ _ _ Hl).
    now rewrite py_max_str.
  - apply dict_truthy_false in Et. subst cur.
    rewrite stream_state_to_tmp_empty. unfold_M.
    rewrite (str_field_get _ _ _ Ha), (str_field_get _ _ _ Hl).
    now rewrite py_max_str.
Qed.

Lemma str_field_singleton (k s : string) :
  str_field {[ k := VStr s ]} k = Some s.
Proof. unfold str_field. now rewrite lookup_singleton_eq. Qed.

Lemma sync_timestamps (c : stream_class) (records : list dict) :
  forall (state : dict) (b : bridge) (a p : string) (ls : list string),
    is_id_cursored c = false ->
    str_field state (cursor_field c) = Some a ->
    Forall2 (fun r l => str_field r (cursor_field c) = Some l) records ls ->
    bridged b (name c) (cursor_field c) = VStr p ->
    exists (b' : bridge) (s' : dict) (p' : string),
      sync c records state b = (b', Ok s')
      /\ str_field s' (cursor_field c) = Some (str_max_list a ls)
      /\ bridged b' (name c) (cursor_field c) = VStr p'.
Proof.
  induction records as [|r rs IH]; intros state b a p ls Hc Ha Hall Hp.
  - apply Forall2_nil_inv_l in Hall as ->. exists b, state, p. auto.
  - apply Forall2_cons_inv_l in Hall as (l & ls' & Hl & Hall & ->).
    simpl. unfold mbind, M_bind, bind.
    rewrite (get_updated_state_timestamps_bridge _ _ _ _ _ _ _ Hc Ha Hl Hp).
    destruct (dict_truthy state).
    + exact (IH _ _ (str_max l a) _ ls' Hc (str_field_singleton _ _) Hall
               (bridged_store _ _ _ _)).
    + exact (IH _ _ (str_max l a) _ ls' Hc (str_field_singleton _ _) Hall
               Hp).
Qed.

(** X6. A sync of a timestamp-cursored stream, each update taking the state
    the one before returned, ends with the largest of the cursor it started
    from and the cursors of the records: a value at least each of them and
    one of them. The records taken in another order give the same
    cursor. *)
Theorem sync_state_is_maximum :
  forall (c : stream_class) (records : list dict) (state : dict)
         (b : bridge) (a p : string) (ls : list string),
    is_id_cursored c = false ->
    str_field state (cursor_field c) = Some a ->
    Forall2 (fun r l => str_field r (cursor_field c) = Some l) records ls ->
    bridged b (name c) (cursor_field c) = VStr p ->
    exists (b' : bridge) (s' : dict),
      sync c records state b = (b', Ok s')
      /\ str_field s' (cursor_field c) = Some (str_max_list a ls)
      /\ String.leb a (str_max_list a ls) = true
      /\ Forall (fun l => String.leb l (str_max_list a ls) = true) ls
      /\ str_max_list a ls ∈ a :: ls
      /\ (forall (records' : list dict) (ls' : list string),
            Forall2 (fun r l => str_field r (cursor_field c) = Some l)
                    records' ls' ->
            ls' ≡ₚ ls ->
            exists (b'' : bridge) (s'' : dict),
              sync c records' state b = (b'', Ok s'')
              /\ str_field s'' (cursor_field c) = str_field s' (cursor_field c)).
Proof.
  intros c records state b a p ls Hc Ha Hall Hp.
  destruct (sync_timestamps c records state b a p ls Hc Ha Hall Hp)
    as (b' & s' & p' & Hrun & Hs' & _).
  exists b', s'. split; [exact Hrun|]. split; [exact Hs'|].
  split; [apply str_max_list_ge_init|]. split; [apply str_max_list_ge|].
  split; [apply str_max_list_in|].
  intros records' ls' Hall' Hperm.
  destruct (sync_timestamps c records' state b a p ls' Hc Ha Hall' Hp)
    as (b'' & s'' & p'' & Hrun' & Hs'' & _).
  exists b'', s''. split; [exact Hrun'|].
  rewrite Hs', Hs''. f_equal. now apply str_max_list_perm.
Qed.

Lemma sync_state_is_maximum_witness :
  let r1 : dict := {[ "updated_at" := VStr "2021-03-01" ]} in
  let r2 : dict := {[ "updated_at" := VStr "2021-02-01" ]} in
  let state : dict := {[ "updated_at" := VStr "2021-01-01" ]} in
  exists (b' : bridge) (s' : dict),
    sync Orders [r1; r2] state ∅ = (b', Ok s')
    /\ str_field s' "updated_at" = Some "2021-03-01"%string.
Proof.
  intros r1 r2 state.
  assert (Hall : Forall2 (fun r l => str_field r (cursor_field Orders) = Some l)
                   [r1; r2] ["2021-03-01"; "2021-02-01"]%string).
  { repeat apply Forall2_cons_2; try apply Forall2_nil_2; reflexivity. }
  assert (Hb : bridged (∅ : bridge) (name Orders) (cursor_field Orders)
               = VStr "") by reflexivity.
  destruct (sync_state_is_maximum Orders [r1; r2] state (∅ : bridge)
              "2021-01-01" "" ["2021-03-01"; "2021-02-01"]%string
              eq_refl eq_refl Hall Hb)
    as (b' & s' & Hrun & Hs' & _).
  exists b', s'. split; [exact Hrun|exact Hs'].
Defined.

Lemma int_field_singleton (k : string) (z : Z) :
  int_field {[ k := VInt z ]} k = Some z.
Proof. unfold int_field. now rewrite lookup_singleton_eq. Qed.

Lemma int_max_list_bounds (ls : list Z) (a : Z) :
  a <= int_max_list a ls
  /\ Forall (fun l => l <= int_max_list a ls) ls
  /\ int_max_list a ls ∈ a :: ls.
Proof.
  unfold int_max_list. revert a.
  induction ls as [|l ls IH]; intros a; simpl.
  - split; [lia|]. split; [apply Forall_nil_2|apply list_elem_of_here].
  - destruct (IH (Z.max l a)) as (H1 & H2 & H3). split; [lia|]. split.
    + apply Forall_cons_2; [lia|exact H2].
    + apply elem_of_cons in H3 as [H3|H3].
      * rewrite H3. destruct (Z.max_spec l a) as [[_ ->]|[_ ->]];
          [apply list_elem_of_here
          |apply list_elem_of_further, list_elem_of_here].
      * now apply list_elem_of_further, list_elem_of_further.
Qed.

Lemma sync_ids (c : stream_class) (records : list dict) :
  forall (state : dict) (b : bridge) (a : Z) (ls : list Z),
    is_id_cursored c = true ->
    int_field state (cursor_field c) = Some a ->
    Forall2 (fun r l => int_field r (cursor_field c) = Some l) records ls ->
    exists s' : dict,
      sync c records state b = (b, Ok s')
      /\ int_field s' (cursor_field c) = Some (int_max_list a ls).
Proof.
  induction records as [|r rs IH]; intros state b a ls Hc Ha Hall.
  - apply Forall2_nil_inv_l in Hall as ->. exists state. auto.
  - apply Forall2_cons_inv_l in Hall as (l & ls' & Hl & Hall & ->).
    simpl. unfold mbind, M_bind, bind.
    rewrite (get_updated_state_ids _ _ _ _ _ _ Hc Ha Hl).
    exact (IH _ b (Z.max l a) ls' Hc (int_field_singleton _ _) Hall).
Qed.

(** X7. A sync of Collects or of OrderRisks ends with the largest of the
    identifier it started from, 0 when it started without one, and the
    identifiers of the records, and never touches the shared object. *)
Theorem sync_ids_is_maximum :
  forall (c : stream_class) (records : list dict) (state : dict)
         (b : bridge) (a : Z) (ls : list Z),
    is_id_cursored c = true ->
    int_field state (cursor_field c) = Some a ->
    Forall2 (fun r l => int_field r (cursor_field c) = Some l) records ls ->
    exists s' : dict,
      sync c records state b = (b, Ok s')
      /\ int_field s' (cursor_field c) = Some (int_max_list a ls)
      /\ a <= int_max_list a ls
      /\ Forall (fun l => l <= int_max_list a ls) ls
      /\ int_max_list a ls ∈ a :: ls.
Proof.
  intros c records state b a ls Hc Ha Hall.
  destruct (sync_ids c records state b a ls Hc Ha Hall) as (s' & Hrun & Hs').
  destruct (int_max_list_bounds ls a) as (H1 & H2 & H3).
  exists s'. auto.
Qed.

Lemma sync_ids_is_maximum_witness :
  let r1 : dict := {[ "id" := VInt 3 ]} in
  let r2 : dict := {[ "id" := VInt 8 ]} in
  let b : bridge := {[ "orders" := {[ "updated_at" := VStr "2021-01-01" ]} ]} in
  exists s' : dict,
    sync OrderRisks [r1; r2] ∅ b = (b, Ok s')
    /\ int_field s' "id" = Some 8.
Proof.
  intros r1 r2 b.
  assert (Hall : Forall2 (fun r l => int_field r (cursor_field OrderRisks)
                                     = Some l) [r1; r2] [3; 8]).
  { repeat apply Forall2_cons_2; try apply Forall2_nil_2; reflexivity. }
  assert (Ha : int_field (∅ : dict) (cursor_field OrderRisks) = Some 0)
    by reflexivity.
  destruct (sync_ids_is_maximum OrderRisks [r1; r2] (∅ : dict) b 0 [3; 8]
              eq_refl Ha Hall) as (s' & Hrun & Hs' & _).
  exists s'. split; [exact Hrun|exact Hs'].
Defined.

(** ** The bridge during a sync *)

Lemma str_min_of_ge (a v : string) :
  String.leb v a = true -> str_min a v = v.
Proof.
  intros H. unfold str_min. destruct (String.leb a v) eqn:E; [|reflexivity].
  now apply String.leb_antisym.
Qed.

Lemma str_max_empty_r (l : string) : str_max l EmptyString = l.
Proof.
  unfold str_max. destruct (String.leb l EmptyString) eqn:E; [|reflexivity].
  symmetry. now apply string_leb_empty_r.
Qed.

(** With a value in the bridge that is not above the cursor of the state,
    a sync on timestamps leaves that value where it is and ends with a
    cursor at least as large. *)
Lemma sync_bridge_stays (c : stream_class) (records : list dict) :
  forall (state : dict) (b : bridge) (a v : string),
    is_id_cursored c = false ->
    state !! cursor_field c = Some (VStr a) ->
    bridged b (name c) (cursor_field c) = VStr v ->
    v <> EmptyString ->
    String.leb v a = true ->
    Forall (fun r => exists l, str_field r (cursor_field c) = Some l) records ->
    exists (b' : bridge) (s' : dict) (m : string),
      sync c records state b = (b', Ok s')
      /\ bridged b' (name c) (cursor_field c) = VStr v
      /\ s' !! cursor_field c = Some (VStr m)
      /\ String.leb v m = true.
Proof.
  induction records as [|r rs IH]; intros state b a v Hc Ha Hv Hne Hle Hall.
  - exists b, state, a. auto.
  - apply Forall_cons in Hall as [[l Hl] Hall].
    assert (Hsf : str_field state (cursor_field c) = Some a)
      by (unfold str_field; now rewrite Ha).
    assert (Ht : dict_truthy state = true).
    { apply dict_truthy_true. intros ->. now rewrite lookup_empty in Ha. }
    simpl. unfold mbind, M_bind, bind.
    rewrite (get_updated_state_timestamps_bridge _ _ _ _ _ _ _ Hc Hsf Hl Hv).
    rewrite Ht. assert (E : (v =? "")%string = false) by now apply String.eqb_neq.
    rewrite E, (str_min_of_ge _ _ Hle).
    apply (IH _ _ (str_max l a) v Hc); try done.
    + apply lookup_singleton_eq.
    + apply bridged_store.
    + eapply string_leb_trans; [exact Hle|apply str_max_ge_r].
Qed.

(** The first record of a sync that starts from a state with a cursor fixes
    the value of the bridge. *)
Lemma sync_bridge_first_record (c : stream_class) (state : dict) (b : bridge)
    (a p : string) (r1 : dict) (l1 : string) (rest : list dict) :
  is_id_cursored c = false ->
  state !! cursor_field c = Some (VStr a) ->
  a <> EmptyString ->
  str_field r1 (cursor_field c) = Some l1 ->
  bridged b (name c) (cursor_field c) = VStr p ->
  (p = EmptyString -> l1 <> EmptyString) ->
  Forall (fun r => exists l, str_field r (cursor_field c) = Some l) rest ->
  let v := if (p =? "")%string then str_min a l1 else str_min a p in
  exists (b' : bridge) (s' : dict) (m : string),
    sync c (r1 :: rest) state b = (b', Ok s')
    /\ bridged b' (name c) (cursor_field c) = VStr v
    /\ s' !! cursor_field c = Some (VStr m)
    /\ String.leb v m = true.
Proof.
  intros Hc Ha Hane Hsl Hb Hl1 Hrest v.
  assert (Hsf : str_field state (cursor_field c) = Some a)
    by (unfold str_field; now rewrite Ha).
  assert (Ht : dict_truthy state = true).
  { apply dict_truthy_true. intros ->. now rewrite lookup_empty in Ha. }
  assert (Hv : v <> EmptyString).
  { unfold v. destruct (String.eqb_spec p "") as [Hp|Hp].
    - apply str_min_nonempty; [exact Hane|now apply Hl1].
    - now apply str_min_nonempty. }
  assert (Hva : String.leb v a = true).
  { unfold v. destruct (p =? "")%string; apply str_min_le_l. }
  simpl. unfold mbind, M_bind, bind.
  rewrite (get_updated_state_timestamps_bridge _ _ _ _ _ _ _ Hc Hsf Hsl Hb).
  rewrite Ht. fold v.
  apply (sync_bridge_stays c rest _ _ (str_max l1 a) v Hc); try done.
  - apply lookup_singleton_eq.
  - apply bridged_store.
  - eapply string_leb_trans; [exact Hva|apply str_max_ge_r].
Qed.

(** X8. During a sync of a timestamp-cursored stream that starts from a
    state with a cursor, the bridge holds one value from the first record
    on: the smaller of that cursor and the value bridged before, when there
    was one, and the smaller of that cursor and the first record's, when
    there was none. The later records do not change it, and the state the
    sync ends with is at least that value. *)
Theorem sync_bridge_low_water :
  forall (c : stream_class) (state : dict) (b : bridge) (a p : string)
         (r1 : dict) (l1 : string) (rest : list dict),
    is_id_cursored c = false ->
    state !! cursor_field c = Some (VStr a) ->
    a <> EmptyString ->
    str_field r1 (cursor_field c) = Some l1 ->
    bridged b (name c) (cursor_field c) = VStr p ->
    (p = EmptyString -> l1 <> EmptyString) ->
    Forall (fun r => exists l, str_field r (cursor_field c) = Some l) rest ->
    let v := if (p =? "")%string then str_min a l1 else str_min a p in
    exists (b' : bridge) (s' : dict) (m : string),
      sync c (r1 :: rest) state b = (b', Ok s')
      /\ bridged b' (name c) (cursor_field c) = VStr v
      /\ s' !! cursor_field c = Some (VStr m)
      /\ String.leb v m = true.
Proof.
  intros c state b a p r1 l1 rest Hc Ha Hane Hsl Hb Hl1 Hrest.
  now apply sync_bridge_first_record.
Qed.

Lemma sync_bridge_low_water_witness :
  let state : dict := {[ "updated_at" := VStr "2021-02-01" ]} in
  let r1 : dict := {[ "updated_at" := VStr "2021-01-01" ]} in
  let r2 : dict := {[ "updated_at" := VStr "2021-04-01" ]} in
  let b : bridge := {[ "orders" := {[ "updated_at" := VStr "2021-03-01" ]} ]} in
  (exists (b' : bridge) (s' : dict) (m : string),
      sync Orders [r1; r2] state ∅ = (b', Ok s')
      /\ bridged b' "orders" "updated_at" = VStr "2021-01-01"
      /\ s' !! "updated_at" = Some (VStr m)
      /\ String.leb "2021-01-01" m = true)
  /\ (exists (b' : bridge) (s' : dict) (m : string),
        sync Orders [r1; r2] state b = (b', Ok s')
        /\ bridged b' "orders" "updated_at" = VStr "2021-02-01"
        /\ s' !! "updated_at" = Some (VStr m)
        /\ String.leb "2021-02-01" m = true).
Proof.
  intros state r1 r2 b.
  assert (Hrest : Forall (fun r => exists l,
                            str_field r (cursor_field Orders) = Some l) [r2]).
  { apply Forall_cons_2; [|apply Forall_nil_2]. eexists. reflexivity. }
  assert (Ha : state !! cursor_field Orders = Some (VStr "2021-02-01"))
    by reflexivity.
  assert (Hl : str_field r1 (cursor_field Orders) = Some "2021-01-01"%string)
    by reflexivity.
  assert (Hb0 : bridged (∅ : bridge) (name Orders) (cursor_field Orders)
                = VStr "") by reflexivity.
  assert (Hb1 : bridged b (name Orders) (cursor_field Orders)
                = VStr "2021-03-01") by reflexivity.
  split.
  - exact (sync_bridge_low_water Orders state ∅ "2021-02-01" "" r1
             "2021-01-01" [r2] eq_refl Ha ltac:(discriminate) Hl Hb0
             ltac:(discriminate) Hrest).
  - exact (sync_bridge_low_water Orders state b "2021-02-01" "2021-03-01" r1
             "2021-01-01" [r2] eq_refl Ha ltac:(discriminate) Hl Hb1
             ltac:(discriminate) Hrest).
Defined.

(** X9. A first sync starts from the empty state. Its first record leaves
    the bridge as it was and returns its cursor; its second record puts in
    the bridge the smaller of the first cursor and the value bridged before,
    when there was one, and the smaller of the first two cursors, when there
    was none; the records after that do not change it. *)
Theorem first_sync_bridge :
  forall (c : stream_class) (b : bridge) (p : string) (r1 r2 : dict)
         (l1 l2 : string) (rest : list dict),
    is_id_cursored c = false ->
    bridged b (name c) (cursor_field c) = VStr p ->
    r1 !! cursor_field c = Some (VStr l1) ->
    l1 <> EmptyString ->
    str_field r2 (cursor_field c) = Some l2 ->
    (p = EmptyString -> l2 <> EmptyString) ->
    Forall (fun r => exists l, str_field r (cursor_field c) = Some l) rest ->
    sync c [r1] ∅ b = (b, Ok {[ cursor_field c := VStr l1 ]})
    /\ exists (b' : bridge) (s' : dict),
         sync c (r1 :: r2 :: rest) ∅ b = (b', Ok s')
         /\ bridged b' (name c) (cursor_field c)
            = VStr (if (p =? "")%string then str_min l1 l2
                    else str_min l1 p).
Proof.
  intros c b p r1 r2 l1 l2 rest Hc Hb Hl1 Hl1ne Hl2 Hl2ne Hrest.
  assert (Hsl : str_field r1 (cursor_field c) = Some l1)
    by (unfold str_field; now rewrite Hl1).
  assert (Hs0 : str_field (∅ : dict) (cursor_field c) = Some EmptyString).
  { unfold str_field. now rewrite lookup_empty. }
  assert (Hstep : get_updated_state c ∅ r1 b
                  = (b, Ok {[ cursor_field c := VStr l1 ]})).
  { rewrite (get_updated_state_timestamps_bridge _ _ _ _ _ _ _ Hc Hs0 Hsl Hb).
    rewrite dict_truthy_empty. now rewrite str_max_empty_r. }
  split.
  - simpl. unfold mbind, M_bind, bind. now rewrite Hstep.
  - destruct (sync_bridge_first_record c {[ cursor_field c := VStr l1 ]}
                b l1 p r2 l2 rest Hc (lookup_singleton_eq _ _) Hl1ne Hl2
                Hb Hl2ne Hrest)
      as (b' & s' & m & Hrun & Hb' & _).
    exists b', s'. split; [|exact Hb'].
    change (sync c (r1 :: r2 :: rest) ∅ b)
      with (mbind (fun s => sync c (r2 :: rest) s) (get_updated_state c ∅ r1) b).
    unfold mbind, M_bind, bind. now rewrite Hstep.
Qed.

Lemma first_sync_bridge_witness :
  let r1 : dict := {[ "updated_at" := VStr "2021-04-01" ]} in
  let r2 : dict := {[ "updated_at" := VStr "2021-05-01" ]} in
  let r3 : dict := {[ "updated_at" := VStr "2021-06-01" ]} in
  let b : bridge := {[ "orders" := {[ "updated_at" := VStr "2021-03-01" ]} ]} in
  (sync Orders [r1] ∅ ∅ = (∅, Ok r1)
   /\ exists (b' : bridge) (s' : dict),
        sync Orders [r1; r2; r3] ∅ ∅ = (b', Ok s')
        /\ bridged b' "orders" "updated_at" = VStr "2021-04-01")
  /\ (sync Orders [r1] ∅ b = (b, Ok r1)
      /\ exists (b' : bridge) (s' : dict),
           sync Orders [r1; r2; r3] ∅ b = (b', Ok s')
           /\ bridged b' "orders" "updated_at" = VStr "2021-03-01").
Proof.
  intros r1 r2 r3 b.
  assert (Hrest : Forall (fun r => exists l,
                            str_field r (cursor_field Orders) = Some l) [r3]).
  { apply Forall_cons_2; [|apply Forall_nil_2]. eexists. reflexivity. }
  assert (Hl1 : r1 !! cursor_field Orders = Some (VStr "2021-04-01"))
    by reflexivity.
  assert (Hl2 : str_field r2 (cursor_field Orders) = Some "2021-05-01"%string)
    by reflexivity.
  assert (Hb0 : bridged (∅ : bridge) (name Orders) (cursor_field Orders)
                = VStr "") by reflexivity.
  assert (Hb1 : bridged b (name Orders) (cursor_field Orders)
                = VStr "2021-03-01") by reflexivity.
  split.
  - exact (first_sync_bridge Orders ∅ "" r1 r2 "2021-04-01" "2021-05-01" [r3]
             eq_refl Hb0 Hl1 ltac:(discriminate) Hl2 ltac:(discriminate)
             Hrest).
  - exact (first_sync_bridge Orders b "2021-03-01" r1 r2 "2021-04-01"
             "2021-05-01" [r3] eq_refl Hb1 Hl1 ltac:(discriminate) Hl2
             ltac:(discriminate) Hrest).
Defined.

(** ** The filter, applied twice and applied without cursor *)

Lemma value_leb_same_kind (a b : value) :
  value_leb a b = true -> same_kind a b = true.
Proof. now destruct a, b. Qed.

Lemma value_leb_trans (a b c : value) :
  value_leb a b = true -> value_leb b c = true -> value_leb a c = true.
Proof.
  destruct a as [|x|x], b as [|y|y], c as [|z|z]; simpl; try done.
  - intros H1 H2. apply Z.leb_le in H1, H2. apply Z.leb_le. lia.
  - apply string_leb_trans.
Qed.

Lemma filter_consume_comparable (c : stream_class) (s : dict)
    (records : list dict) :
  dict_truthy s = true ->
  Forall (cursor_comparable (cursor_field c)
            (py_get s (cursor_field c) VNone)) records ->
  consume (filter_records_newer_than_state c (Some s) (of_list records))
  = Outcome (map Yield (List.filter
                          (cursor_at_least (cursor_field c)
                             (py_get s (cursor_field c) VNone)) records))
            Finished.
Proof.
  intros Hs Hall. unfold consume. rewrite (filter_with_state _ _ _ _ Hs).
  rewrite <- (app_nil_r records) at 1.
  rewrite (filter_for_each_app _ _ _ [] Hall). simpl.
  now rewrite and_then_finished_r.
Qed.

Lemma yielded_Outcome_map (records : list dict) (e : ending) :
  yielded (Outcome (map Yield records) e) = records.
Proof. unfold yielded. simpl. apply yielded_map_Yield. Qed.

Lemma list_filter_filter_implies {A : Type} (f g : A -> bool) (l : list A) :
  (forall x, g x = true -> f x = true) ->
  List.filter g (List.filter f l) = List.filter g l.
Proof.
  intros Himp. induction l as [|x l IH]; simpl; [reflexivity|].
  destruct (f x) eqn:Ef; simpl.
  - now rewrite IH.
  - destruct (g x) eqn:Eg; [|exact IH]. rewrite (Himp x Eg) in Ef.
    discriminate.
Qed.

(** X10. On records of the data model, every record the filter yields has a
    cursor at or above the state's, and filtering what the filter yielded
    again, with a state whose cursor is the same or larger, yields what
    filtering the records with that second state yields: the filter is
    idempotent, and a later state can be applied to an earlier result. *)
Theorem filter_records_newer_than_state_twice :
  forall (c : stream_class) (s1 s2 : dict) (records : list dict),
    let cf := cursor_field c in
    let once s rs :=
      yielded (consume (filter_records_newer_than_state c (Some s)
                          (of_list rs))) in
    dict_truthy s1 = true ->
    dict_truthy s2 = true ->
    value_leb (py_get s1 cf VNone) (py_get s2 cf VNone) = true ->
    Forall (cursor_comparable cf (py_get s1 cf VNone)) records ->
    Forall (fun r => cursor_at_least cf (py_get s1 cf VNone) r = true)
           (once s1 records)
    /\ once s1 (once s1 records) = once s1 records
    /\ once s2 (once s1 records) = once s2 records.
Proof.
  intros c s1 s2 records cf once Hs1 Hs2 Hle Hall.
  set (v1 := py_get s1 cf VNone) in *. set (v2 := py_get s2 cf VNone) in *.
  pose proof (value_leb_same_kind _ _ Hle) as Hk.
  assert (Hcmp2 : forall rs, Forall (cursor_comparable cf v1) rs ->
                             Forall (cursor_comparable cf v2) rs).
  { intros rs Hrs. eapply Forall_impl; [exact Hrs|].
    intros r (x & Hx & Hxk). exists x. split; [exact Hx|]. eapply same_kind_trans; eassumption. }
  assert (Hsub : forall f rs, Forall (cursor_comparable cf v1) rs ->
             Forall (cursor_comparable cf v1) (List.filter f rs)).
  { intros f rs Hrs. rewrite Forall_forall in *. intros r Hr.
    apply list_elem_of_In, List.filter_In in Hr as [Hr _].
    apply Hrs. now apply list_elem_of_In. }
  assert (H1 : once s1 records = List.filter (cursor_at_least cf v1) records).
  { unfold once. rewrite (filter_consume_comparable _ _ _ Hs1 Hall).
    apply yielded_Outcome_map. }
  assert (H2 : forall rs, Forall (cursor_comparable cf v1) rs ->
             once s2 rs = List.filter (cursor_at_least cf v2) rs).
  { intros rs Hrs. unfold once.
    rewrite (filter_consume_comparable _ _ _ Hs2 (Hcmp2 _ Hrs)).
    apply yielded_Outcome_map. }
  assert (H1' : forall rs, Forall (cursor_comparable cf v1) rs ->
             once s1 rs = List.filter (cursor_at_least cf v1) rs).
  { intros rs Hrs. unfold once.
    rewrite (filter_consume_comparable _ _ _ Hs1 Hrs).
    apply yielded_Outcome_map. }
  split; [|split].
  - rewrite H1. rewrite Forall_forall. intros r Hr.
    now apply list_elem_of_In, List.filter_In in Hr as [_ Hr].
  - rewrite H1, (H1' _ (Hsub _ _ Hall)).
    now apply list_filter_filter_implies.
  - rewrite H1, (H2 _ (Hsub _ _ Hall)), (H2 _ Hall).
    apply list_filter_filter_implies. intros r. unfold cursor_at_least.
    destruct (r !! cf); [|done]. now apply value_leb_trans.
Qed.

Lemma filter_records_newer_than_state_twice_witness :
  let r1 : dict := {[ "created_at" := VStr "2021-05-01" ]} in
  let r2 : dict := {[ "created_at" := VStr "2021-06-01" ]} in
  let r3 : dict := {[ "created_at" := VStr "2021-07-01" ]} in
  let once s rs :=
    yielded (consume (filter_records_newer_than_state OrderRefunds (Some s)
                        (of_list rs))) in
  once r3 (once r2 [r1; r2; r3]) = once r3 [r1; r2; r3].
Proof.
  intros r1 r2 r3 once.
  refine (proj2 (proj2 (filter_records_newer_than_state_twice OrderRefunds
                          r2 r3 [r1; r2; r3] eq_refl eq_refl eq_refl _))).
  repeat apply Forall_cons_2; try apply Forall_nil_2;
    eexists; split; reflexivity.
Defined.

(** X11. A state that is not empty but holds no cursor value, or [None] for
    it, makes the filter fail on the first record and yield nothing: with
    [KeyError] when that record lacks the cursor field too, the subscript
    being evaluated first, and with [TypeError] otherwise. With no record
    at all it finishes. *)
Theorem filter_records_newer_than_state_no_cursor :
  forall (c : stream_class) (s : dict),
    dict_truthy s = true ->
    py_get s (cursor_field c) VNone = VNone ->
    let run records :=
      consume (filter_records_newer_than_state c (Some s) (of_list records)) in
    run [] = finished
    /\ (forall (r : dict) (rest : list dict),
          r !! cursor_field c = None -> run (r :: rest) = raised KeyError)
    /\ (forall (r : dict) (rest : list dict),
          is_Some (r !! cursor_field c) -> run (r :: rest) = raised TypeError).
Proof.
  intros c s Hs Hv run.
  assert (Hrun : forall records,
             run records = for_each records (filter_step (cursor_field c) s)).
  { intros records. unfold run, consume.
    now rewrite (filter_with_state _ _ _ _ Hs). }
  split; [|split].
  - now rewrite Hrun.
  - intros r rest Hr. rewrite Hrun. simpl. unfold filter_step at 1.
    now rewrite (newer_than_state_missing _ _ _ Hr).
  - intros r rest [v Hr]. rewrite Hrun. simpl. unfold filter_step at 1.
    unfold newer_than_state, py_item. rewrite Hr, Hv. now destruct v.
Qed.

Lemma filter_records_newer_than_state_no_cursor_witness :
  let s : dict := {[ "id" := VInt 5 ]} in
  let r : dict := {[ "created_at" := VStr "2021-05-01" ]} in
  consume (filter_records_newer_than_state OrderRefunds (Some s)
             (of_list [r; r])) = raised TypeError
  /\ consume (filter_records_newer_than_state OrderRefunds (Some s)
                (of_list [s; r])) = raised KeyError.
Proof.
  intros s r.
  destruct (filter_records_newer_than_state_no_cursor OrderRefunds s
              eq_refl eq_refl) as (_ & H2 & H3).
  split.
  - apply (H3 r [r]). eexists. reflexivity.
  - exact (H2 s [r] eq_refl).
Defined.

(** ** The filter over a page loop *)

Lemma resume_filter_step (cf : string) (s : dict) (es : list event)
    (e : ending) :
  let o := resume es e (filter_step cf s) in
  requests o `prefix_of` requests (Outcome es e)
  /\ yielded o `sublist_of` yielded (Outcome es e)
  /\ (ending_of o = Finished ->
      requests o = requests (Outcome es e) /\ e = Finished).
Proof.
  induction es as [|[rq|r] es IH]; cbn [resume].
  - split; [done|]. split; [done|]. intros H. split; [done|exact H].
  - destruct IH as (Hp & Hs & Hf).
    change (and_then (sent rq) (resume es e (filter_step cf s)))
      with (Outcome (Sent rq :: events (resume es e (filter_step cf s)))
                    (ending_of (resume es e (filter_step cf s)))).
    split; [|split].
    + now apply prefix_cons.
    + exact Hs.
    + intros H. destruct (Hf H) as [Hr He]. split; [|exact He].
      change (rq :: requests (resume es e (filter_step cf s))
              = rq :: requests (Outcome es e)).
      now rewrite Hr.
  - destruct IH as (Hp & Hs & Hf).
    assert (Hcases : filter_step cf s r = yield r
                     \/ filter_step cf s r = finished
                     \/ exists x, filter_step cf s r = raised x).
    { unfold filter_step.
      destruct (newer_than_state cf s r) as [[]|x]; eauto. }
    destruct Hcases as [-> | [-> | [x ->]]].
    + rewrite and_then_yield. split; [exact Hp|]. split.
      * now apply sublist_skip.
      * exact Hf.
    + rewrite and_then_finished_l. split; [exact Hp|]. split.
      * now apply sublist_cons.
      * exact Hf.
    + rewrite and_then_raised. split; [apply prefix_nil|]. split.
      * apply sublist_nil_l.
      * discriminate.
Qed.

(** X12. The filter sends no request of its own and adds no record. Put on
    a page loop, it leaves the requests of the loop in their order, cut
    short where the filter raises, and yields a sub-sequence of the records
    of the loop; when it finishes the loop has finished and every request of
    the loop has been sent. Without state it is the loop itself. *)
Theorem filter_over_page_loop :
  forall (lib : urllib) (send : request -> response) (cfg : config) (fuel : nat)
         (c : stream_class) (loop_state stream_slice stream_state : option dict),
    let plain :=
      consume (HttpStream_read_records lib send cfg fuel c loop_state
                 stream_slice) in
    let filtered :=
      consume (filter_records_newer_than_state c stream_state
                 (HttpStream_read_records lib send cfg fuel c loop_state
                    stream_slice)) in
    requests filtered `prefix_of` requests plain
    /\ yielded filtered `sublist_of` yielded plain
    /\ (ending_of filtered = Finished ->
        requests filtered = requests plain /\ ending_of plain = Finished)
    /\ (opt_truthy stream_state = false -> filtered = plain).
Proof.
  intros lib send cfg fuel c loop_state stream_slice stream_state plain filtered.
  destruct (opt_truthy stream_state) eqn:Hs.
  - assert (Hf : filtered
                 = feed plain (filter_step (cursor_field c)
                                 (default ∅ stream_state))).
    { unfold filtered, plain, consume, filter_records_newer_than_state.
      rewrite Hs. unfold HttpStream_read_records.
      exact (page_loop_feed _ _ _ _ _ _ _ _ _). }
    destruct (resume_filter_step (cursor_field c) (default ∅ stream_state)
                (events plain) (ending_of plain)) as (Hp & Hy & Hfin).
    rewrite Hf. unfold feed.
    assert (Heta : Outcome (events plain) (ending_of plain) = plain)
      by now destruct plain.
    rewrite Heta in Hp, Hy, Hfin.
    split; [exact Hp|]. split; [exact Hy|]. split; [exact Hfin|discriminate].
  - assert (Hf : filtered = plain).
    { unfold filtered. now rewrite (filter_without_state _ _ _ Hs). }
    rewrite Hf. repeat split; done.
Qed.

Lemma filter_over_page_loop_witness :
  let cfg := Config (VStr "2020-01-01") "x" in
  let state : option dict := Some {[ "created_at" := VStr "2021-06-01" ]} in
  let slice : option dict := Some {[ "order_id" := VInt 1 ]} in
  requests (consume (filter_records_newer_than_state OrderRefunds state
                       (HttpStream_read_records example_urllib example_shop cfg 3
                          OrderRefunds None slice)))
  = requests (consume (HttpStream_read_records example_urllib example_shop cfg 3
                         OrderRefunds None slice)).
Proof.
  intros cfg state slice.
  destruct (filter_over_page_loop example_urllib example_shop cfg 3 OrderRefunds None slice
              state) as (_ & _ & H & _).
  exact (proj1 (H eq_refl)).
Defined.

(** ** Discount codes under their price rules *)

Lemma path_discount_codes (price_rule_id : value) :
  path DiscountCodes (Some {[ "price_rule_id" := price_rule_id ]})
  = Ok (price_rule_path price_rule_id).
Proof.
  unfold path, slice_item, py_item. now rewrite lookup_singleton_eq.
Qed.

Lemma price_rule_cycle_requests (lib : urllib) (send : request -> response) (cfg : config)
    (fuel : nat) (stream_state : option dict) (data : dict)
    (price_rule_id : value) :
  data !! "id" = Some price_rule_id ->
  Forall (fun rq => req_path rq = price_rule_path price_rule_id)
    (requests (price_rule_cycle lib send cfg fuel stream_state data)).
Proof.
  intros Hid. unfold price_rule_cycle, py_item. rewrite Hid.
  unfold consume, filter_records_newer_than_state, HttpStream_read_records.
  destruct (opt_truthy stream_state);
    apply page_loop_requests with (p := price_rule_path price_rule_id);
    try apply path_discount_codes; intros r.
  - apply filter_body_requests.
  - apply Forall_nil_2.
Qed.

Lemma price_rules_first_request (lib : urllib) (send : request -> response) (cfg : config)
    (fuel : nat) (price_rules_stream_state : option dict) :
  head (requests (consume (HttpStream_read_records lib send cfg (S fuel)
                             PriceRules price_rules_stream_state None)))
  = Some (Request "price_rules.json"
            (request_params PriceRules cfg price_rules_stream_state None)).
Proof.
  unfold consume, HttpStream_read_records. cbn [page_loop path].
  destruct price_rules_stream_state as [d|]; cbn [default];
    rewrite ?request_params_no_state; reflexivity.
Qed.

(** X13. Reading DiscountCodes reads the stream PriceRules from the state
    bridged under ["price_rules"], its first request going to
    [price_rules.json], and runs at each price rule yielded one fetch cycle
    through the filter, all of whose requests go to
    [price_rules/<id>/discount_codes.json]. A price rule without [id] ends
    the read with [KeyError]. When the parent read and every cycle finish,
    the events of the read are the parent's, each price rule replaced by the
    events of its cycle. *)
Theorem discount_codes_read_records :
  forall (lib : urllib) (send : request -> response) (cfg : config) (fuel : nat)
         (tmp_stream_state : bridge)
         (stream_state stream_slice : option dict),
    let parent :=
      consume (HttpStream_read_records lib send cfg fuel PriceRules
                 (tmp_stream_state !! "price_rules") None) in
    let cycle := price_rule_cycle lib send cfg fuel stream_state in
    let reading :=
      consume (read_records lib send cfg fuel DiscountCodes tmp_stream_state
                 stream_state stream_slice) in
    reading = feed parent cycle
    /\ (forall n, fuel = S n ->
          head (requests parent)
          = Some (Request "price_rules.json"
                    (request_params PriceRules cfg
                       (tmp_stream_state !! "price_rules") None)))
    /\ (forall data : dict, data !! "id" = None -> cycle data = raised KeyError)
    /\ (forall (data : dict) (price_rule_id : value),
          data !! "id" = Some price_rule_id ->
          Forall (fun rq => req_path rq = price_rule_path price_rule_id)
                 (requests (cycle data)))
    /\ (ending_of parent = Finished ->
        Forall (fun data => ending_of (cycle data) = Finished)
               (yielded parent) ->
        reading = Outcome (flat_map (splice cycle) (events parent)) Finished).
Proof.
  intros lib send cfg fuel b stream_state stream_slice parent cycle reading.
  assert (Hfeed : reading = feed parent cycle).
  { unfold reading, parent, cycle, consume.
    exact (page_loop_feed _ _ _ _ _ _ _ _ _). }
  split; [exact Hfeed|]. split; [|split; [|split]].
  - intros n ->. apply price_rules_first_request.
  - intros data Hid. unfold cycle, price_rule_cycle, py_item. now rewrite Hid.
  - intros data price_rule_id Hid. now apply price_rule_cycle_requests.
  - intros Hend Hall. rewrite Hfeed. unfold feed. rewrite Hend.
    now apply resume_finished.
Qed.

Lemma discount_codes_read_records_witness :
  let cfg := Config (VStr "2020-01-01") "x" in
  let reading :=
    consume (read_records example_urllib example_price_shop cfg 5 DiscountCodes ∅ None
               None) in
  map req_path (requests reading)
  = [ "price_rules.json"; "price_rules/10/discount_codes.json";
      "price_rules/20/discount_codes.json" ]%string
  /\ length (yielded reading) = 2%nat.
Proof.
  intros cfg reading.
  destruct (discount_codes_read_records example_urllib example_price_shop cfg 5 ∅ None None)
    as (_ & _ & _ & _ & H).
  assert (Hall : Forall
            (fun data => ending_of (price_rule_cycle example_urllib example_price_shop cfg 5
                                      None data) = Finished)
            (yielded (consume (HttpStream_read_records example_urllib example_price_shop cfg
                                 5 PriceRules ((∅ : bridge) !! "price_rules")
                                 None)))).
  { repeat apply Forall_cons_2; try apply Forall_nil_2; reflexivity. }
  unfold reading. rewrite (H eq_refl Hall).
  split; reflexivity.
Defined.

(** ** A state without cursor *)

Lemma str_min_empty_l (s : string) : str_min EmptyString s = EmptyString.
Proof. unfold str_min. now rewrite string_leb_empty. Qed.

(** X14. A current state that is not empty but lacks the cursor field
    erases what the bridge held for the stream: the update stores the empty
    string, and the next update, finding no value, stores the minimum of its
    own state and record, whatever the erased value was. *)
Theorem stream_state_to_tmp_state_without_cursor :
  forall (stream_name cf : string) (cur latest : dict) (b : bridge)
         (l p : string),
    dict_truthy cur = true ->
    cur !! cf = None ->
    str_field latest cf = Some l ->
    bridged b stream_name cf = VStr p ->
    let b' := exec (stream_state_to_tmp stream_name cur latest cf) b in
    bridged b' stream_name cf = VStr ""
    /\ (forall (cur2 latest2 : dict) (c2 l2 : string),
          dict_truthy cur2 = true ->
          str_field cur2 cf = Some c2 ->
          str_field latest2 cf = Some l2 ->
          bridged (exec (stream_state_to_tmp stream_name cur2 latest2 cf) b')
                  stream_name cf
          = VStr (str_min c2 l2)).
Proof.
  intros stream_name cf cur latest b l p Hcur Hc Hl Hp b'.
  assert (Hsf : str_field cur cf = Some EmptyString)
    by (unfold str_field; now rewrite Hc).
  assert (Hb' : bridged b' stream_name cf = VStr "").
  { unfold b', exec.
    rewrite (stream_state_to_tmp_timestamps _ _ _ _ _ _ _ _ Hcur Hsf Hl Hp).
    simpl. rewrite bridged_store, !str_min_empty_l.
    now destruct (p =? "")%string. }
  split; [exact Hb'|].
  intros cur2 latest2 c2 l2 Hcur2 Hc2 Hl2. unfold exec.
  rewrite (stream_state_to_tmp_timestamps _ _ _ _ _ _ _ _ Hcur2 Hc2 Hl2 Hb').
  simpl. apply bridged_store.
Qed.

Lemma stream_state_to_tmp_state_without_cursor_witness :
  let b : bridge := {[ "orders" := {[ "updated_at" := VStr "2021-01-01" ]} ]} in
  let cur : dict := {[ "id" := VInt 1 ]} in
  let latest : dict := {[ "updated_at" := VStr "2021-05-01" ]} in
  let cur2 : dict := {[ "updated_at" := VStr "2021-05-01" ]} in
  let latest2 : dict := {[ "updated_at" := VStr "2021-06-01" ]} in
  let b' := exec (stream_state_to_tmp "orders" cur latest "updated_at") b in
  bridged b' "orders" "updated_at" = VStr ""
  /\ bridged (exec (stream_state_to_tmp "orders" cur2 latest2 "updated_at") b')
             "orders" "updated_at" = VStr "2021-05-01".
Proof.
  intros b cur latest cur2 latest2.
  destruct (stream_state_to_tmp_state_without_cursor "orders" "updated_at"
              cur latest b "2021-05-01" "2021-01-01"
              eq_refl eq_refl eq_refl eq_refl) as [H1 H2].
  split; [exact H1|].
  exact (H2 cur2 latest2 "2021-05-01"%string "2021-06-01"%string
            eq_refl eq_refl eq_refl).
Defined.

(** ** The state of a sub-stream and its requests *)

Lemma filter_page_loop_requests (lib : urllib) (send : request -> response) (cfg : config)
    (fuel : nat) (c : stream_class)
    (loop_state stream_slice stream_state : option dict) :
  let plain :=
    consume (HttpStream_read_records lib send cfg fuel c loop_state
               stream_slice) in
  let filtered :=
    consume (filter_records_newer_than_state c stream_state
               (HttpStream_read_records lib send cfg fuel c loop_state
                  stream_slice)) in
  requests filtered `prefix_of` requests plain
  /\ (ending_of filtered = Finished -> requests filtered = requests plain).
Proof.
  intros plain filtered. destruct (opt_truthy stream_state) eqn:Hs.
  - assert (Hf : filtered
                 = feed plain (filter_step (cursor_field c)
                                 (default ∅ stream_state))).
    { unfold filtered, plain, consume, filter_records_newer_than_state.
      rewrite Hs. unfold HttpStream_read_records.
      exact (page_loop_feed _ _ _ _ _ _ _ _ _). }
    destruct (resume_filter_step (cursor_field c) (default ∅ stream_state)
                (events plain) (ending_of plain)) as (Hp & _ & Hfin).
    rewrite Hf. unfold feed.
    assert (Heta : Outcome (events plain) (ending_of plain) = plain)
      by now destruct plain.
    rewrite Heta in Hp, Hfin. split; [exact Hp|]. intros H.
    exact (proj1 (Hfin H)).
  - assert (Hf : filtered = plain).
    { unfold filtered. now rewrite (filter_without_state _ _ _ Hs). }
    rewrite Hf. split; done.
Qed.

Lemma order_cycle_no_state (lib : urllib) (send : request -> response) (cfg : config)
    (fuel : nat) (c : stream_class) (data : dict) (order_id : value) :
  data !! "id" = Some order_id ->
  order_cycle lib send cfg fuel c None data
  = consume (HttpStream_read_records lib send cfg fuel c None
               (Some {[ "order_id" := order_id ]})).
Proof. intros Hid. unfold order_cycle, py_item. now rewrite Hid. Qed.

(** X15. The state of a child stream of orders never reaches the server.
    For every order the requests of the fetch cycle are those the cycle
    sends without state, cut short only where the filter raises: the first
    one asks for the order ["<order_field> asc"] from [start_date], from 0
    for OrderRisks, and the state only decides which of the records fetched
    are yielded. *)
Theorem order_cycle_requests_ignore_state :
  forall (lib : urllib) (send : request -> response) (cfg : config) (fuel : nat)
         (c : stream_class) (stream_state : option dict) (data : dict)
         (order_id : value),
    is_order_substream c = true ->
    data !! "id" = Some order_id ->
    let with_state := order_cycle lib send cfg fuel c stream_state data in
    let without := order_cycle lib send cfg fuel c None data in
    requests with_state `prefix_of` requests without
    /\ (ending_of with_state = Finished ->
        requests with_state = requests without)
    /\ (forall n, fuel = S n ->
          exists rq, head (requests with_state) = Some rq
                     /\ req_params rq !! "order"
                        = Some (VStr (order_field c +:+ " asc"))
                     /\ req_params rq !! filter_field c
                        = Some (if is_id_cursored c then VInt 0
                                else start_date cfg)).
Proof.
  intros lib send cfg fuel c stream_state data order_id Hc Hid with_state without.
  destruct (filter_page_loop_requests lib send cfg fuel c None
              (Some {[ "order_id" := order_id ]}) stream_state) as [Hp Hf].
  assert (Hw : with_state
               = consume (filter_records_newer_than_state c stream_state
                            (HttpStream_read_records lib send cfg fuel c None
                               (Some {[ "order_id" := order_id ]})))).
  { unfold with_state, order_cycle, py_item. now rewrite Hid. }
  unfold without. rewrite (order_cycle_no_state _ _ _ _ _ _ _ Hid), Hw.
  split; [exact Hp|]. split; [exact Hf|].
  intros n ->.
  exists (Request (order_path c order_id) (request_params c cfg None None)).
  split.
  - rewrite <- Hw. unfold with_state.
    pose proof (order_cycle_first_request lib send cfg n c stream_state data
                  order_id Hc Hid) as Hh.
    unfold requests. destruct (events _) as [|[rq|r] es]; try discriminate Hh.
    simpl in Hh. injection Hh as ->. reflexivity.
  - simpl. destruct c; try discriminate Hc; split; reflexivity.
Qed.

Lemma order_cycle_requests_ignore_state_witness :
  let cfg := Config (VStr "2020-01-01") "x" in
  let state : option dict := Some {[ "created_at" := VStr "2021-06-01" ]} in
  let data : dict := {[ "id" := VInt 1 ]} in
  requests (order_cycle example_urllib example_shop cfg 3 OrderRefunds state data)
  = requests (order_cycle example_urllib example_shop cfg 3 OrderRefunds None data).
Proof.
  intros cfg state data.
  destruct (order_cycle_requests_ignore_state example_urllib example_shop cfg 3 OrderRefunds
              state data (VInt 1) eq_refl eq_refl) as (_ & H & _).
  exact (H eq_refl).
Defined.

(** X16. A parent record without [id] ends the read of a child stream of
    orders with [KeyError]: the cycles of the records before it have run,
    no cycle runs for it or for a later record, and the parent sends no
    further request. *)
Theorem order_substream_parent_without_id :
  forall (lib : urllib) (send : request -> response) (cfg : config) (fuel : nat)
         (c : stream_class) (tmp_stream_state : bridge)
         (stream_state stream_slice : option dict)
         (pre post : list event) (data : dict),
    is_order_substream c = true ->
    let parent :=
      consume (HttpStream_read_records lib send cfg fuel Orders
                 (tmp_stream_state !! "orders") None) in
    let cycle := order_cycle lib send cfg fuel c stream_state in
    events parent = pre ++ Yield data :: post ->
    data !! "id" = None ->
    Forall (fun r => ending_of (cycle r) = Finished)
           (yielded (Outcome pre Finished)) ->
    consume (read_records lib send cfg fuel c tmp_stream_state stream_state
               stream_slice)
    = Outcome (flat_map (splice cycle) pre) (Raised KeyError).
Proof.
  intros lib send cfg fuel c b stream_state stream_slice pre post data Hc
    parent cycle Hev Hid Hall.
  assert (Hfeed : consume (read_records lib send cfg fuel c b stream_state
                             stream_slice) = feed parent cycle).
  { unfold parent, cycle, consume.
    destruct c; try discriminate Hc;
      exact (page_loop_feed _ _ _ _ _ _ _ _ _). }
  rewrite Hfeed. unfold feed. rewrite Hev, resume_app.
  rewrite (resume_finished pre cycle Hall). cbn [resume].
  assert (Hcy : cycle data = raised KeyError).
  { unfold cycle, order_cycle, py_item. now rewrite Hid. }
  rewrite Hcy, and_then_raised. unfold and_then. simpl.
  now rewrite app_nil_r.
Qed.

Lemma order_substream_parent_without_id_witness :
  let cfg := Config (VStr "2020-01-01") "x" in
  let reading :=
    consume (read_records example_urllib example_broken_shop cfg 5 OrderRefunds ∅ None
               None) in
  ending_of reading = Raised KeyError
  /\ map req_path (requests reading)
     = [ "orders.json"; "orders/1/refunds.json" ]%string.
Proof.
  intros cfg reading.
  assert (Hall : Forall
            (fun r => ending_of (order_cycle example_urllib example_broken_shop cfg 5
                                   OrderRefunds None r) = Finished)
            (yielded (Outcome
               [Sent (Request "orders.json"
                        (request_params Orders cfg None None));
                Yield {[ "id" := VInt 1 ]}] Finished))).
  { repeat apply Forall_cons_2; try apply Forall_nil_2; reflexivity. }
  assert (Hev : events (consume (HttpStream_read_records example_urllib example_broken_shop
                                   cfg 5 Orders ((∅ : bridge) !! "orders") None))
                = [Sent (Request "orders.json"
                           (request_params Orders cfg None None));
                   Yield {[ "id" := VInt 1 ]}]
                  ++ Yield {[ "name" := VStr "#1002" ]}
                     :: [Yield {[ "id" := VInt 3 ]}]) by reflexivity.
  assert (Hid : ({[ "name" := VStr "#1002" ]} : dict) !! "id" = None)
    by reflexivity.
  unfold reading.
  rewrite (order_substream_parent_without_id example_urllib example_broken_shop cfg 5
             OrderRefunds ∅ None None _ _ _ eq_refl Hev Hid Hall).
  split; reflexivity.
Defined.
